(** * knext.ca.common.base: the question graph and the Agent resolver

    A shallow embedding of [src/python/knext/knext/ca/common/base.py].

    Python objects live in a heap and are named by references, so that two
    names for one list (or one dict) see each other's writes.  Methods are
    computations in a small state-and-exception monad over that heap.
    Loops that Python may run for ever ([while True], [while now.parent],
    a [for] over a list that its body lengthens) take a fuel argument; a computation that is out of fuel is [Pending]:
    it has neither returned nor raised. *)

From Stdlib Require Import ZArith Ascii.
From stdpp Require Import base list strings gmap.

(** ** Values *)

(** A reference to a heap object. *)
Definition loc := nat.

(** The exceptions the modelled code can meet. *)
Inductive exn :=
| NotImplementedError
| AttributeError
| ToolError (msg : string).

(** What [process_intermediate_info] is handed: a payload dict, or an
    instance of [StopAsyncIteration] used as the end-of-run marker. *)
Inductive info :=
| InfoDict (payload : list (string * string))
| StopAsyncIteration.

(** [isinstance(info_dict, StopAsyncIteration)] *)
Definition isinstance_StopAsyncIteration (info_dict : info) : bool :=
  match info_dict with
  | StopAsyncIteration => true
  | InfoDict _ => false
  end.

(** Observable calls, recorded in program order. *)
Inductive event :=
| EvProcess (tool : loc) (info_dict : info)   (* info_tool.process(info_dict) *)
| EvIsSolved (q : loc)                        (* q.is_solved() inside a gate *)
| EvSleep.                                    (* await asyncio.sleep(0.5) *)

(** ** Objects *)

(** class Question: its attributes after [__init__]. *)
Record Question := mkQuestion {
  question : string;
  dependencies : loc;        (* a list object *)
  children : loc;            (* a list object *)
  parent : option loc;       (* None, or a Question *)
  answer : option string;
  context : option string
}.

(** class Agent: its attributes after [__init__]. *)
Record Agent := mkAgent {
  queue : option loc;
  ready_question_count : option Z;
  solved_question_set : option loc;
  ready_question_set : option loc;
  remaining_question_set : option loc;
  extra_info_fetch_tools : loc;
  intermediate_process_tools : loc;
  intermediate_process_tasks : loc;
  extra_output_dict : loc
}.

Inductive obj :=
| OQuestion (q : Question)
| OAgent (a : Agent)
| OList (items : list loc)
| ODict (d : gmap string string)
| OSet (s : gset loc)
| OQueue (items : list loc)
(* an extra-info fetcher and the dict it was connected to *)
| OFetcher (connected : option loc)
(* an intermediate processor, an instance of the class numbered [cls];
   what its [process] does is the code of that class *)
| OProcessor (cls : nat).

(** ** The monad *)

Record world := mkWorld {
  heap : list obj;
  clock : nat;             (* sleeps taken so far *)
  trace : list event
}.

Inductive result (A : Type) :=
| Return (a : A)
| Raise (e : exn)
| Pending.
Arguments Return {A} a.
Arguments Raise {A} e.
Arguments Pending {A}.

Definition M (A : Type) : Type := world -> result A * world.

Definition ret {A} (a : A) : M A := fun w => (Return a, w).
Definition raise {A} (e : exn) : M A := fun w => (Raise e, w).
Definition pending {A} : M A := fun w => (Pending, w).

Definition bind {A B} (m : M A) (k : A -> M B) : M B :=
  fun w =>
    match m w with
    | (Return a, w') => k a w'
    | (Raise e, w') => (Raise e, w')
    | (Pending, w') => (Pending, w')
    end.

Declare Scope py_scope.
Delimit Scope py_scope with py.
Notation "x <- m ;; k" := (bind m (fun x => k))
  (at level 100, m at next level, right associativity) : py_scope.
Notation "m ;; k" := (bind m (fun _ => k))
  (at level 100, right associativity) : py_scope.
Open Scope py_scope.

(** [for x in items: body(x)] over a snapshot of the items. *)
Fixpoint for_each {A} (items : list A) (body : A -> M unit) : M unit :=
  match items with
  | [] => ret tt
  | x :: rest => body x ;; for_each rest body
  end.

Definition log (e : event) : M unit :=
  fun w => (Return tt, mkWorld (heap w) (clock w) (trace w ++ [e])).

(** ** Heap access *)

(** Creating an object: it gets the next unused reference. *)
Definition alloc (o : obj) : M loc :=
  fun w => (Return (length (heap w)),
            mkWorld (heap w ++ [o]) (clock w) (trace w)).

Definition get_obj (l : loc) : M obj :=
  fun w =>
    match heap w !! l with
    | Some o => (Return o, w)
    | None => (Raise AttributeError, w)
    end.

Definition put_obj (l : loc) (o : obj) : M unit :=
  fun w => (Return tt, mkWorld (<[l := o]> (heap w)) (clock w) (trace w)).

Definition get_question (l : loc) : M Question :=
  o <- get_obj l ;;
  match o with
  | OQuestion q => ret q
  | _ => raise AttributeError
  end.

Definition get_agent (l : loc) : M Agent :=
  o <- get_obj l ;;
  match o with
  | OAgent a => ret a
  | _ => raise AttributeError
  end.

Definition get_list (l : loc) : M (list loc) :=
  o <- get_obj l ;;
  match o with
  | OList items => ret items
  | _ => raise AttributeError
  end.

Definition get_dict (l : loc) : M (gmap string string) :=
  o <- get_obj l ;;
  match o with
  | ODict d => ret d
  | _ => raise AttributeError
  end.

(** [lst.append(x)] *)
Definition list_append (l : loc) (x : loc) : M unit :=
  items <- get_list l ;;
  put_obj l (OList (items ++ [x])).

(** ** class Question *)

(** The default values of [Question.__init__]: the two [[]] of
    [def __init__(self, question, dependencies=[], children=[], ...)]
    are evaluated once, when the [def] statement runs. *)
Record init_defaults := mkDefaults {
  default_dependencies : loc;
  default_children : loc
}.

Definition def_Question__init__ : M init_defaults :=
  d <- alloc (OList []) ;;
  c <- alloc (OList []) ;;
  ret (mkDefaults d c).

(** [Question(question, dependencies, children, parent, context)]; an
    omitted [dependencies] or [children] argument is [None] here and takes
    the function's default. *)
Definition Question__init__ (defaults : init_defaults)
    (question : string) (dependencies children : option loc)
    (parent : option loc) (context : option string) : M loc :=
  alloc (OQuestion
    {| question := question;
       dependencies := default (default_dependencies defaults) dependencies;
       children := default (default_children defaults) children;
       parent := parent;
       answer := None;
       context := context |}).

(** [return self.answer is not None] *)
Definition is_solved (self : loc) : M bool :=
  q <- get_question self ;;
  ret (match answer q with Some _ => true | None => false end).

(** The loop of [get_current_depth]:
    [while now.parent: now = now.parent; now_depth += 1]. *)
Fixpoint get_current_depth_loop (fuel : nat) (now : loc) (now_depth : Z)
  : M Z :=
  match fuel with
  | O => pending
  | S fuel' =>
      q <- get_question now ;;
      match parent q with
      | Some p => get_current_depth_loop fuel' p (now_depth + 1)%Z
      | None => ret now_depth
      end
  end.

Definition get_current_depth (fuel : nat) (self : loc) : M Z :=
  get_current_depth_loop fuel self 1%Z.

(** ** The pipelines' tools *)

(** The code of the [process] methods, by class.  It is arbitrary code of
    the caller's: given the processor it runs on, the event, the calls made
    so far and the heap, it may change any object of the heap (the list of
    processors included), and it returns, raises, or does not come back
    ([Pending]).  It is synchronous, so the clock stands still. *)
Definition process_code : Type :=
  nat -> loc -> info -> list event -> list obj -> result unit * list obj.

(** [info_tool.process(info_dict)]: the call is recorded and the code of
    the processor's class runs on the heap. *)
Definition process (code : process_code) (info_tool : loc)
    (info_dict : info) : M unit :=
  o <- get_obj info_tool ;;
  match o with
  | OProcessor cls =>
      fun w =>
        let '(r, h') := code cls info_tool info_dict (trace w) (heap w) in
        (r, mkWorld h' (clock w)
              (trace w ++ [EvProcess info_tool info_dict]))
  | _ => raise AttributeError
  end.

(** [for x in lst: body(x)] over the list object itself.  The iterator
    keeps an index [i]; each step reads the list as it is then, takes entry
    [i] if there is one and stops otherwise.  A body that shortens the list
    makes an entry be passed over, one that lengthens it adds steps; [fuel]
    bounds the number of steps. *)
Fixpoint for_in_list (fuel : nat) (lst : loc) (i : nat)
    (body : loc -> M unit) : M unit :=
  match fuel with
  | O => pending
  | S fuel' =>
      items <- get_list lst ;;
      match items !! i with
      | Some x => body x ;; for_in_list fuel' lst (S i) body
      | None => ret tt
      end
  end.

(** Modelled from the spec: [connect_extra_output_dict] of an extra-info
    fetcher, whose class is not in this file.  "contract
    [connect(shared_output_map)] called once at Resolver construction":
    the fetcher keeps the reference it is handed. *)
Definition connect_extra_output_dict (extra_tool : loc) (d : loc) : M unit :=
  o <- get_obj extra_tool ;;
  match o with
  | OFetcher _ => put_obj extra_tool (OFetcher (Some d))
  | _ => raise AttributeError
  end.

(** Modelled from the spec: a fetcher's write, "afterward the fetcher runs
    autonomously and writes into the shared map using its own keys": the
    write goes to the dict the fetcher was connected to. *)
Definition fetcher_write (extra_tool : loc) (k v : string) : M unit :=
  o <- get_obj extra_tool ;;
  match o with
  | OFetcher (Some d) =>
      o' <- get_obj d ;;
      match o' with
      | ODict m => put_obj d (ODict (<[k := v]> m))
      | _ => raise AttributeError
      end
  | _ => raise AttributeError
  end.

(** ** class Agent *)

Definition Agent__init__ (extra_info_fetch_tools
                          intermediate_process_tools : loc) : M loc :=
  tasks <- alloc (OList []) ;;
  d <- alloc (ODict ∅) ;;
  self <- alloc (OAgent
    {| queue := None;
       ready_question_count := None;
       solved_question_set := None;
       ready_question_set := None;
       remaining_question_set := None;
       extra_info_fetch_tools := extra_info_fetch_tools;
       intermediate_process_tools := intermediate_process_tools;
       intermediate_process_tasks := tasks;
       extra_output_dict := d |}) ;;
  tools <- get_list extra_info_fetch_tools ;;
  for_each tools (fun extra_tool => connect_extra_output_dict extra_tool d) ;;
  ret self.

Definition reset_context (self : loc) : M unit :=
  a <- get_agent self ;;
  remaining <- alloc (OSet ∅) ;;
  ready <- alloc (OSet ∅) ;;
  solved <- alloc (OSet ∅) ;;
  q <- alloc (OQueue []) ;;
  tasks <- alloc (OList []) ;;
  d <- alloc (ODict ∅) ;;
  put_obj self (OAgent
    {| queue := Some q;
       ready_question_count := Some 0%Z;
       solved_question_set := Some solved;
       ready_question_set := Some ready;
       remaining_question_set := Some remaining;
       extra_info_fetch_tools := extra_info_fetch_tools a;
       intermediate_process_tools := intermediate_process_tools a;
       intermediate_process_tasks := tasks;
       extra_output_dict := d |}).

(** [code] is the code of the processors' classes; [fuel] bounds the steps
    of the loop. *)
Definition process_intermediate_info (code : process_code) (fuel : nat)
    (self : loc) (info_dict : info) : M unit :=
  if negb (isinstance_StopAsyncIteration info_dict) then
    a <- get_agent self ;;
    for_in_list fuel (intermediate_process_tools a) 0
      (fun info_tool => process code info_tool info_dict)
  else ret tt.

(** The body of one poll of a gate:
    [all_solved = True]
    [for dep in items: if not dep.is_solved(): all_solved = False] *)
Fixpoint poll_gate (items : list loc) (all_solved : bool) : M bool :=
  match items with
  | [] => ret all_solved
  | dep :: rest =>
      log (EvIsSolved dep) ;;
      s <- is_solved dep ;;
      poll_gate rest (if negb s then false else all_solved)
  end.

Section Scheduling.
(** What the other tasks of the event loop do to the heap while this one
    sleeps for the [n]-th time. *)
Variable others : nat -> list obj -> list obj.

(** [await asyncio.sleep(0.5)] *)
Definition sleep : M unit :=
  fun w => (Return tt,
            mkWorld (others (clock w) (heap w)) (S (clock w))
                    (trace w ++ [EvSleep])).

(** [is_question_deps_ready]; [fuel] bounds the number of polls. *)
Fixpoint is_question_deps_ready (fuel : nat) (self question : loc)
  : M unit :=
  match fuel with
  | O => pending
  | S fuel' =>
      q <- get_question question ;;
      deps <- get_list (dependencies q) ;;
      all_solved <- poll_gate deps true ;;
      if all_solved then ret tt
      else sleep ;; is_question_deps_ready fuel' self question
  end.

(** [is_question_children_ready] *)
Fixpoint is_question_children_ready (fuel : nat) (self question : loc)
  : M unit :=
  match fuel with
  | O => pending
  | S fuel' =>
      q <- get_question question ;;
      chs <- get_list (children q) ;;
      all_solved <- poll_gate chs true ;;
      if all_solved then ret tt
      else sleep ;; is_question_children_ready fuel' self question
  end.
End Scheduling.

Section Resolver.
(** The answer type and the [solve_problem_impl] of the concrete
    strategy (a subclass overrides it). *)
Context {R : Type}.
Variable solve_problem_impl :
  loc -> loc -> list (string * string) -> M R.

(** [loop.run_until_complete(coro)]: the coroutine's result, or its
    exception. *)
Definition run_until_complete (coro : M R) : M R := coro.

(** [asyncio.new_event_loop()] and [asyncio.set_event_loop(loop)] touch
    none of the objects modelled here. *)
Definition solve_problem (self question : loc)
    (kwargs : list (string * string)) : M R :=
  reset_context self ;;
  result <- run_until_complete (solve_problem_impl self question kwargs) ;;
  ret result.
End Resolver.

(** [Agent.solve_problem_impl] of the base class. *)
Definition Agent_solve_problem_impl {R : Type} (self question : loc)
    (kwargs : list (string * string)) : M R :=
  raise NotImplementedError.

(** ** Notions the properties are stated with *)

(** The nodes from [l] up to the root, following [parent]: [n] of them. *)
Inductive parent_chain (h : list obj) : loc -> nat -> Prop :=
| chain_root l q :
    h !! l = Some (OQuestion q) -> parent q = None ->
    parent_chain h l 1
| chain_step l q p n :
    h !! l = Some (OQuestion q) -> parent q = Some p ->
    parent_chain h p n ->
    parent_chain h l (S n).

(** The two gates of the Agent and the attribute each one reads. *)
Inductive gate := Deps | Children.

Definition gating_set (g : gate) : Question -> loc :=
  match g with
  | Deps => dependencies
  | Children => children
  end.

Definition gating_wait (others : nat -> list obj -> list obj) (g : gate)
  : nat -> loc -> loc -> M unit :=
  match g with
  | Deps => is_question_deps_ready others
  | Children => is_question_children_ready others
  end.

Definition is_question_in (h : list obj) (l : loc) : bool :=
  match h !! l with
  | Some (OQuestion _) => true
  | _ => false
  end.

(** Node [l] holds an answer in heap [h]. *)
Definition solved_in (h : list obj) (l : loc) : bool :=
  match h !! l with
  | Some (OQuestion q) => bool_decide (answer q <> None)
  | _ => false
  end.

(** The members of the gating set of [question] in heap [h], when
    [question] is a node, its gating attribute a list, and every member of
    that list a node. *)
Definition gate_items (g : gate) (h : list obj) (question : loc)
  : option (list loc) :=
  match h !! question with
  | Some (OQuestion q) =>
      match h !! gating_set g q with
      | Some (OList items) =>
          if forallb (is_question_in h) items then Some items else None
      | _ => None
      end
  | _ => None
  end.

(** Every member of the gating set is solved. *)
Definition gate_open (g : gate) (h : list obj) (question : loc) : bool :=
  match gate_items g h question with
  | Some items => forallb (solved_in h) items
  | None => false
  end.

(** The heap a waiting task finds at its [k]-th poll, counted from a poll
    made at clock [c] in heap [h]. *)
Fixpoint heap_at (others : nat -> list obj -> list obj)
    (k : nat) (c : nat) (h : list obj) : list obj :=
  match k with
  | O => h
  | S k' => heap_at others k' (S c) (others c h)
  end.

#[global] Instance info_eq_dec : EqDecision info.
Proof. solve_decision. Defined.

#[global] Instance event_eq_dec : EqDecision event.
Proof. solve_decision. Defined.

(** How many times [tool.process(info_dict)] was called in a trace. *)
Definition invocations (tool : loc) (info_dict : info) (tr : list event)
  : nat :=
  count_occ event_eq_dec tr (EvProcess tool info_dict).

(** One call of [process] with [info_dict] per entry of [tools], in
    order. *)
Definition process_calls (tools : list loc) (info_dict : info)
  : list event :=
  map (fun t => EvProcess t info_dict) tools.

(** What the calls of one run do.  Calling [process] with [info_dict] on
    the entries [entries] one after the other, from the history [tr] and
    the heap [h], every call returns and leaves at [lst] the list [tools];
    [h_end] is the heap after the last of them.  Each call is looked at in
    the history and the heap the calls before it have left, not in any
    other. *)
Fixpoint calls_return (code : process_code) (info_dict : info)
    (lst : loc) (tools : list loc) (entries : list loc)
    (tr : list event) (h h_end : list obj) : Prop :=
  match entries with
  | [] => h_end = h
  | t :: entries' =>
      exists cls h1,
        h !! t = Some (OProcessor cls) /\
        code cls t info_dict tr h = (Return tt, h1) /\
        h1 !! lst = Some (OList tools) /\
        calls_return code info_dict lst tools entries'
          (tr ++ [EvProcess t info_dict]) h1 h_end
  end.

(** The per-run state of agent [self] in [w0] is new with respect to [w]:
    the three question sets are empty sets, the count is 0, the queue is an
    empty queue and [extra_output_dict] an empty dict, each of them an
    object that did not exist in [w]; the two lists of tools are those of
    [a]. *)
Definition run_state_is_fresh (w w0 : world) (self : loc) (a : Agent)
  : Prop :=
  exists (a0 : Agent) (remaining ready solved q : loc),
    heap w0 !! self = Some (OAgent a0) /\
    remaining_question_set a0 = Some remaining /\
    heap w0 !! remaining = Some (OSet ∅) /\
    ready_question_set a0 = Some ready /\
    heap w0 !! ready = Some (OSet ∅) /\
    solved_question_set a0 = Some solved /\
    heap w0 !! solved = Some (OSet ∅) /\
    ready_question_count a0 = Some 0%Z /\
    queue a0 = Some q /\
    heap w0 !! q = Some (OQueue []) /\
    heap w0 !! extra_output_dict a0 = Some (ODict ∅) /\
    Forall (fun l => heap w !! l = None)
      [remaining; ready; solved; q; extra_output_dict a0] /\
    List.NoDup [remaining; ready; solved; q; extra_output_dict a0] /\
    extra_info_fetch_tools a0 = extra_info_fetch_tools a /\
    intermediate_process_tools a0 = intermediate_process_tools a /\
    clock w0 = clock w /\ trace w0 = trace w.

(** ** Small question graphs used as examples *)

Definition node (body : string) (deps chs : loc) (par : option loc)
    (ans : option string) : obj :=
  OQuestion {| question := body; dependencies := deps; children := chs;
               parent := par; answer := ans; context := None |}.

(** X (at 3) depends on Y (at 2); Y is not solved yet. *)
Definition w_xy : world :=
  mkWorld [OList []; OList [2%nat]; node "Y" 0 0 None None;
           node "X" 1 0 None None] 0 [].

(** Another task that answers Y while the waiting task sleeps. *)
Definition answer_y (n : nat) (h : list obj) : list obj :=
  <[2%nat := node "Y" 0 0 None (Some "42")]> h.

(** No other task touches the heap. *)
Definition nobody (n : nat) (h : list obj) : list obj := h.

(** A node (at 2) that lists itself among its dependencies. *)
Definition w_cycle : world :=
  mkWorld [OList [2%nat]; OList []; node "Q" 0 1 None None] 0 [].

(** A three-generation family: root (1), its child (2), its grandchild (3). *)
Definition w_family : world :=
  mkWorld [OList []; node "root" 0 0 None None;
           node "child" 0 0 (Some 1%nat) None;
           node "grandchild" 0 0 (Some 2%nat) None] 0 [].

(** Two nodes built without [dependencies] and [children], then
    [a.dependencies.append(c)] and [a.children.append(c)]; the value is
    [(b.dependencies, b.children)]. *)
Definition two_default_nodes : M (list loc * list loc) :=
  defaults <- def_Question__init__ ;;
  a <- Question__init__ defaults "a" None None None None ;;
  b <- Question__init__ defaults "b" None None None None ;;
  c <- Question__init__ defaults "c" None None None None ;;
  qa <- get_question a ;;
  list_append (dependencies qa) c ;;
  list_append (children qa) c ;;
  qb <- get_question b ;;
  deps <- get_list (dependencies qb) ;;
  chs <- get_list (children qb) ;;
  ret (deps, chs).

Definition empty_world : world := mkWorld [] 0 [].

(** [lst.remove(x)]: the list without the first [x]. *)
Fixpoint remove_first (x : loc) (items : list loc) : list loc :=
  match items with
  | [] => []
  | y :: rest => if bool_decide (y = x) then rest else y :: remove_first x rest
  end.

(** Four classes of processors: one that always returns, one that always
    raises, one that returns the first time it gets an event and raises
    when it gets the same event again, and one that takes itself off the
    list at reference 1 and returns. *)
Definition example_code : process_code :=
  fun cls self info_dict history h =>
    match cls with
    | 0%nat => (Return tt, h)
    | 1%nat => (Raise (ToolError "boom"), h)
    | 2%nat =>
        if bool_decide (EvProcess self info_dict ∈ history)
        then (Raise (ToolError "again"), h)
        else (Return tt, h)
    | _ =>
        match h !! 1%nat with
        | Some (OList items) =>
            (Return tt, <[1%nat := OList (remove_first self items)]> h)
        | _ => (Return tt, h)
        end
    end.

Definition quiet : obj := OProcessor 0.
Definition failing : obj := OProcessor 1.
Definition once : obj := OProcessor 2.
Definition leaver : obj := OProcessor 3.

Definition blank_agent (fetchers processors tasks d : loc) : obj :=
  OAgent {| queue := None; ready_question_count := None;
            solved_question_set := None; ready_question_set := None;
            remaining_question_set := None;
            extra_info_fetch_tools := fetchers;
            intermediate_process_tools := processors;
            intermediate_process_tasks := tasks;
            extra_output_dict := d |}.

(** An agent (at 5) with the processors [quiet; failing; quiet]
    (at 0, 1, 0) and no fetcher. *)
Definition w_pipeline : world :=
  mkWorld [quiet; failing; OList [0; 1; 0]%nat; OList []; ODict ∅;
           blank_agent 3 2 3 4] 0 [].

(** An agent (at 4) with the single processor [quiet] (at 0). *)
Definition w_quiet : world :=
  mkWorld [quiet; OList [0%nat]; OList []; ODict ∅;
           blank_agent 2 1 2 3] 0 [].

(** An agent (at 5) with the processors [quiet; once] (at 0 and 2). *)
Definition w_once : world :=
  mkWorld [quiet; OList [0; 2]%nat; once; OList []; ODict ∅;
           blank_agent 3 1 3 4] 0 [].

(** An agent (at 5) with the processors [leaver; quiet] (at 0 and 2). *)
Definition w_leaver : world :=
  mkWorld [leaver; OList [0; 2]%nat; quiet; OList []; ODict ∅;
           blank_agent 3 1 3 4] 0 [].

(** One fetcher (at 0), the list of fetchers (at 1), an empty list (at 2)
    and a root question (at 3). *)
Definition w_fetcher : world :=
  mkWorld [OFetcher None; OList [0%nat]; OList [];
           node "root" 2 2 None None] 0 [].

(** A strategy during which the fetcher writes ["k"] to ["v"]. *)
Definition writing_impl (self question : loc)
    (kwargs : list (string * string)) : M string :=
  fetcher_write 0 "k" "v" ;;
  ret "done".

(** Build the agent, run [solve_problem], then read
    [agent.extra_output_dict.get("k")]. *)
Definition run_with_fetcher : M (option string) :=
  self <- Agent__init__ 1 2 ;;
  solve_problem writing_impl self 3 [] ;;
  a <- get_agent self ;;
  d <- get_dict (extra_output_dict a) ;;
  ret (d !! "k").

(** The same write made right after construction, with no
    [solve_problem] in between. *)
Definition write_after_init : M (option string) :=
  self <- Agent__init__ 1 2 ;;
  fetcher_write 0 "k" "v" ;;
  a <- get_agent self ;;
  d <- get_dict (extra_output_dict a) ;;
  ret (d !! "k").

(** A node (at 1) that is its own parent, as after [q.parent = q]. *)
Definition w_own_parent : world :=
  mkWorld [OList []; node "q" 0 0 (Some 1%nat) None] 0 [].

(** [t] is an extra-info fetcher in heap [h]. *)
Definition is_fetcher_in (h : list obj) (t : loc) : Prop :=
  exists c, h !! t = Some (OFetcher c).

(** Build an agent over the given tools, let fetcher [t] write [k] to [v]
    before any run, and read [agent.extra_output_dict.get(k)]. *)
Definition write_then_read (fetchers processors t : loc) (k v : string)
  : M (option string) :=
  self <- Agent__init__ fetchers processors ;;
  fetcher_write t k v ;;
  a <- get_agent self ;;
  d <- get_dict (extra_output_dict a) ;;
  ret (d !! k).

(** An agent (at 4) already connected to its fetcher (at 0) through the
    dict at 3, which holds one entry. *)
Definition w_connected : world :=
  mkWorld [OFetcher (Some 3%nat); OList [0%nat]; OList [];
           ODict {[ "k" := "v" ]}; blank_agent 1 2 2 3] 0 [].

(** ** class KagBaseModule: the prompt-template text *)

(** [s.replace(old, new)] for a non-empty [old]: scan from the left; where
    [old] starts, emit [new] and skip the rest of the occurrence ([skip]
    counts the characters still to skip); elsewhere copy the character. *)
Fixpoint replace_scan (old new s : string) (skip : nat) : string :=
  match s with
  | EmptyString => EmptyString
  | String c rest =>
      match skip with
      | S k => replace_scan old new rest k
      | O =>
          if String.prefix old s
          then new +:+ replace_scan old new rest (String.length old - 1)
          else String c (replace_scan old new rest 0)
      end
  end.

(** [s.replace("", new)]: [new] before every character and at the end. *)
Fixpoint replace_empty (new s : string) : string :=
  match s with
  | EmptyString => new
  | String c rest => new +:+ String c (replace_empty new rest)
  end.

(** Python's [str.replace(old, new)]. *)
Definition str_replace (old new s : string) : string :=
  match old with
  | EmptyString => replace_empty new s
  | String _ _ => replace_scan old new s 0
  end.

(** [process_template_string_to_avoid_doller_problem]; [var_names] is what
    [self.get_template_var_names()] returns in the concrete module. *)
Definition process_template_string_to_avoid_doller_problem
    (var_names : list string) (template_string : string) : string :=
  let new_template_str := str_replace "$" "$$" template_string in
  fold_left
    (fun new_template_str var =>
       str_replace ("$$" +:+ var) ("$" +:+ var) new_template_str)
    var_names new_template_str.

(** The string has no dollar sign. *)
Fixpoint dollar_free (s : string) : bool :=
  match s with
  | EmptyString => true
  | String c rest => negb (Ascii.eqb c "$"%char) && dollar_free rest
  end.

(** The number of dollar signs of a string. *)
Fixpoint count_dollars (s : string) : nat :=
  match s with
  | EmptyString => 0
  | String c rest =>
      ((if Ascii.eqb c "$"%char then 1 else 0) + count_dollars rest)%nat
  end.

(** Every dollar sign written twice. *)
Fixpoint double_dollars (s : string) : string :=
  match s with
  | EmptyString => EmptyString
  | String c rest =>
      if Ascii.eqb c "$"%char then String "$"%char (String "$"%char (double_dollars rest))
      else String c (double_dollars rest)
  end.

(** ** class KagBaseModule: loading and saving the prompt template *)

(** [string.Template(text)]: the object keeps the text in [.template]. *)
Record Template := mkTemplate { template : string }.

(** The state dict of a module: its only key is ['prompt_template']. *)
Record state_dict := mkStateDict { prompt_template : Template }.

(** [b.startswith('/')] and [path.endswith('/')]. *)
Definition startswith_sep (b : string) : bool :=
  match b with
  | String c _ => Ascii.eqb c "/"%char
  | EmptyString => false
  end.

Fixpoint endswith_sep (path : string) : bool :=
  match path with
  | EmptyString => false
  | String c EmptyString => Ascii.eqb c "/"%char
  | String _ rest => endswith_sep rest
  end.

(** One step of [os.path.join] (posixpath): an absolute component replaces
    what was joined so far; otherwise it is appended, after a ['/'] unless
    the path is empty or ends with one. *)
Definition path_join_step (path b : string) : string :=
  if startswith_sep b then b
  else if bool_decide (path = "") || endswith_sep path then path +:+ b
  else path +:+ "/" +:+ b.

(** [os.path.join(a, *p)] *)
Definition path_join (a : string) (p : list string) : string :=
  fold_left path_join_step p a.

(** What [f.read()] gives for a file opened with [open(path, 'r')]: text
    mode translates the line ends, so every carriage return followed by a
    line feed, and every other carriage return, of the stored text comes
    out as one line feed. *)
Fixpoint universal_newlines (s : string) : string :=
  match s with
  | EmptyString => EmptyString
  | String c rest =>
      if Ascii.eqb c "013"%char then
        match rest with
        | String c2 rest2 =>
            if Ascii.eqb c2 "010"%char
            then String "010"%char (universal_newlines rest2)
            else String "010"%char (universal_newlines rest)
        | EmptyString => String "010"%char EmptyString
        end
      else String c (universal_newlines rest)
  end.

(** The string has no carriage return. *)
Fixpoint cr_free (s : string) : bool :=
  match s with
  | EmptyString => true
  | String c rest => negb (Ascii.eqb c "013"%char) && cr_free rest
  end.

(** The files: path to stored text.  [os.path.exists(path)] is "the path
    has a text"; [os.makedirs(dir, exist_ok=True)] succeeds and adds no
    file; [open(path, 'w').write(text)] stores the text as it is (the line
    separator of a POSIX system is the line feed itself); reading goes
    through [universal_newlines]. *)
Section PromptTemplates.
(** [self.get_module_name()] and [self.get_template_var_names()] of the
    concrete module, the directory of this source file, and
    [os.getcwd()]. *)
Variable module_name : string.
Variable var_names : list string.
Variable source_dir : string.
Variable cwd : string.

Definition load_prompt_template (fs : gmap string string)
    (prompt_dir : string) : Template :=
  let prompt_file_path := path_join prompt_dir [module_name +:+ ".txt"] in
  match fs !! prompt_file_path with
  | Some stored =>
      let template_string := universal_newlines stored in
      mkTemplate
        (process_template_string_to_avoid_doller_problem var_names
           template_string)
  | None => mkTemplate "default prompt. edit it anyway"
  end.

Definition save_prompt_template (fs : gmap string string)
    (prompt_dir : string) (prompt_template : string)
  : gmap string string :=
  let prompt_file_path := path_join prompt_dir [module_name +:+ ".txt"] in
  <[prompt_file_path := prompt_template]> fs.

Definition get_ca_default_prompt_template_dir (is_prompt_template_cn : bool)
  : string :=
  let directory := path_join source_dir [".."; "logic/modules"] in
  if is_prompt_template_cn
  then path_join directory ["default_prompt_template"]
  else path_join directory ["default_prompt_template_en"].

Definition create_default_state_dict (fs : gmap string string)
    (is_prompt_template_cn : bool) : state_dict :=
  mkStateDict
    (load_prompt_template fs
       (get_ca_default_prompt_template_dir is_prompt_template_cn)).

Definition save_state_dict (fs : gmap string string) (save_dir : string)
    (sd : state_dict) : gmap string string :=
  let prompt_dir := path_join save_dir ["prompt_template"] in
  save_prompt_template fs prompt_dir (template (prompt_template sd)).

Definition load_state_dict (fs : gmap string string) (save_dir : string)
  : state_dict :=
  let prompt_dir := path_join save_dir ["prompt_template"] in
  mkStateDict (load_prompt_template fs prompt_dir).

Definition does_state_dict_exists (fs : gmap string string)
    (save_dir : string) : bool :=
  let prompt_file_path :=
    path_join save_dir ["prompt_template"; module_name +:+ ".txt"] in
  bool_decide (is_Some (fs !! prompt_file_path)).

(** [init_state_dict]; the value is the state dict and the files it
    leaves. *)
Definition init_state_dict (fs : gmap string string)
    (use_default_prompt_template is_prompt_template_cn : bool)
    (prompt_template_dir : option string)
  : state_dict * gmap string string :=
  if use_default_prompt_template
  then (create_default_state_dict fs is_prompt_template_cn, fs)
  else
    let working_dir :=
      match prompt_template_dir with
      | Some d => if bool_decide (d = "") then cwd else d
      | None => cwd
      end in
    if does_state_dict_exists fs working_dir
    then (load_state_dict fs working_dir, fs)
    else
      let sd := create_default_state_dict fs is_prompt_template_cn in
      (sd, save_state_dict fs working_dir sd).
End PromptTemplates.

(** ** builder/rest/builder_api.py: class BuilderApi *)

Module BuilderApi.

(** The Python values that travel through the keyword arguments. *)
#[warnings="-register-all"]
Inductive pyval :=
| PyNone
| PyBool (b : bool)
| PyInt (n : Z)
| PyStr (s : string)
| PyObject (id : nat)
| PyDict (items : list (string * pyval)).

(** A dict in insertion order; [d[k] = v] keeps the place of an existing
    key and appends a new one. *)
Fixpoint dict_set (k : string) (v : pyval) (d : list (string * pyval))
  : list (string * pyval) :=
  match d with
  | [] => [(k, v)]
  | (k', v') :: rest =>
      if bool_decide (k' = k) then (k, v) :: rest
      else (k', v') :: dict_set k v rest
  end.

(** The arguments of one [self.api_client.call_api(...)]. *)
Record api_call := mkCall {
  resource_path : string;
  method : string;
  path_params : list (string * pyval);
  query_params : list (string * pyval);
  header_params : list (string * pyval);
  body : pyval;
  post_params : list (string * pyval);
  files : list (string * pyval);
  response_type : string;
  auth_settings : list string;
  async_req : pyval;
  _return_http_data_only : pyval;
  _preload_content : pyval;
  _request_timeout : pyval;
  collection_formats : list (string * string)
}.

(** What a method does: it hands a request to the client and returns what
    the client returns, or it raises [ApiTypeError]. *)
Inductive api_result (R : Type) :=
| Called (r : R)
| RaisedApiTypeError (msg : string).
Arguments Called {R} r.
Arguments RaisedApiTypeError {R} msg.

(** The options every method accepts besides its own parameters. *)
Definition common_params : list string :=
  ["async_req"; "_return_http_data_only"; "_preload_content";
   "_request_timeout"].

(** The loop over [six.iteritems(local_var_params["kwargs"])]: the first
    key that is not in [all_params] raises; the others are copied into
    [local_var_params]. *)
Fixpoint copy_kwargs (method_name : string) (all_params : list string)
    (items : list (string * pyval)) (local_var_params : gmap string pyval)
  : string + gmap string pyval :=
  match items with
  | [] => inr local_var_params
  | (key, val) :: rest =>
      if bool_decide (key ∈ all_params)
      then copy_kwargs method_name all_params rest
             (<[key := val]> local_var_params)
      else inl ("Got an unexpected keyword argument '" +:+ key
                +:+ "' to method " +:+ method_name)
  end.

(** [local_var_params.get(key)] and [local_var_params.get(key, default)] *)
Definition dict_get (d : gmap string pyval) (key : string) : pyval :=
  default PyNone (d !! key).

Definition dict_get_default (d : gmap string pyval) (key : string)
    (dflt : pyval) : pyval :=
  default dflt (d !! key).

Section Client.
(** The client: [call_api] and the two header selectors of [ApiClient],
    which is not in this file. *)
Context {R : Type}.
Variable call_api : api_call -> R.
Variable select_header_accept : list string -> pyval.
Variable select_header_content_type : list string -> pyval.
Variable self : pyval.

(** [local_var_params = locals()] at the top of a method. *)
Definition locals_ (kwargs : list (string * pyval)) : gmap string pyval :=
  <["kwargs" := PyDict kwargs]> (<["self" := self]> ∅).

Definition builder_query_job_inst_get_with_http_info
    (kwargs : list (string * pyval)) : api_result R :=
  let all_params := ["job_inst_id"] ++ common_params in
  match copy_kwargs "builder_query_job_inst_get" all_params kwargs
          (locals_ kwargs) with
  | inl msg => RaisedApiTypeError msg
  | inr local_var_params =>
      let local_var_params := delete "kwargs" local_var_params in
      let query_params :=
        match local_var_params !! "job_inst_id" with
        | Some PyNone | None => []
        | Some v => [("jobInstId", v)]
        end in
      let header_params :=
        [("Accept", select_header_accept ["application/json"])] in
      Called (call_api
        {| resource_path := "/builder/queryJobInst";
           method := "GET";
           path_params := [];
           query_params := query_params;
           header_params := header_params;
           body := PyNone;
           post_params := [];
           files := [];
           response_type := "list[BuilderJobInst]";
           auth_settings := [];
           async_req := dict_get local_var_params "async_req";
           _return_http_data_only :=
             dict_get local_var_params "_return_http_data_only";
           _preload_content :=
             dict_get_default local_var_params "_preload_content"
               (PyBool true);
           _request_timeout := dict_get local_var_params "_request_timeout";
           collection_formats := [] |})
  end.

Definition builder_query_job_inst_get (kwargs : list (string * pyval))
  : api_result R :=
  builder_query_job_inst_get_with_http_info
    (dict_set "_return_http_data_only" (PyBool true) kwargs).

Definition builder_submit_job_info_post_with_http_info
    (kwargs : list (string * pyval)) : api_result R :=
  let all_params := ["builder_job_submit_request"] ++ common_params in
  match copy_kwargs "builder_submit_job_info_post" all_params kwargs
          (locals_ kwargs) with
  | inl msg => RaisedApiTypeError msg
  | inr local_var_params =>
      let local_var_params := delete "kwargs" local_var_params in
      let body_params :=
        match local_var_params !! "builder_job_submit_request" with
        | Some v => v
        | None => PyNone
        end in
      let header_params :=
        [("Accept", select_header_accept ["application/json"]);
         ("Content-Type",
          select_header_content_type ["application/json"])] in
      Called (call_api
        {| resource_path := "/builder/submitJobInfo";
           method := "POST";
           path_params := [];
           query_params := [];
           header_params := header_params;
           body := body_params;
           post_params := [];
           files := [];
           response_type := "JobBuilderReceipt";
           auth_settings := [];
           async_req := dict_get local_var_params "async_req";
           _return_http_data_only :=
             dict_get local_var_params "_return_http_data_only";
           _preload_content :=
             dict_get_default local_var_params "_preload_content"
               (PyBool true);
           _request_timeout := dict_get local_var_params "_request_timeout";
           collection_formats := [] |})
  end.

Definition builder_submit_job_info_post (kwargs : list (string * pyval))
  : api_result R :=
  builder_submit_job_info_post_with_http_info
    (dict_set "_return_http_data_only" (PyBool true) kwargs).

Definition search_engine_index_get_with_http_info
    (kwargs : list (string * pyval)) : api_result R :=
  let all_params :=
    ["spg_type"; "search_engine_index_response"] ++ common_params in
  match copy_kwargs "search_engine_index_get" all_params kwargs
          (locals_ kwargs) with
  | inl msg => RaisedApiTypeError msg
  | inr local_var_params =>
      let local_var_params := delete "kwargs" local_var_params in
      let query_params :=
        match local_var_params !! "spg_type" with
        | Some PyNone | None => []
        | Some v => [("spgType", v)]
        end in
      let body_params :=
        match local_var_params !! "search_engine_index_response" with
        | Some v => v
        | None => PyNone
        end in
      let header_params :=
        [("Accept", select_header_accept ["application/json"]);
         ("Content-Type",
          select_header_content_type ["application/json"])] in
      Called (call_api
        {| resource_path := "/searchEngine/index";
           method := "GET";
           path_params := [];
           query_params := query_params;
           header_params := header_params;
           body := body_params;
           post_params := [];
           files := [];
           response_type := "SearchEngineIndexResponse";
           auth_settings := [];
           async_req := dict_get local_var_params "async_req";
           _return_http_data_only :=
             dict_get local_var_params "_return_http_data_only";
           _preload_content :=
             dict_get_default local_var_params "_preload_content"
               (PyBool true);
           _request_timeout := dict_get local_var_params "_request_timeout";
           collection_formats := [] |})
  end.

Definition search_engine_index_get (kwargs : list (string * pyval))
  : api_result R :=
  search_engine_index_get_with_http_info
    (dict_set "_return_http_data_only" (PyBool true) kwargs).
End Client.

(** The request with [_return_http_data_only] set to [True]. *)
Definition with_data_only (req : api_call) : api_call :=
  {| resource_path := resource_path req;
     method := method req;
     path_params := path_params req;
     query_params := query_params req;
     header_params := header_params req;
     body := body req;
     post_params := post_params req;
     files := files req;
     response_type := response_type req;
     auth_settings := auth_settings req;
     async_req := async_req req;
     _return_http_data_only := PyBool true;
     _preload_content := _preload_content req;
     _request_timeout := _request_timeout req;
     collection_formats := collection_formats req |}.

(** The text of the [ApiTypeError] for [key] in [method_name]. *)
Definition unexpected_keyword (key method_name : string) : string :=
  "Got an unexpected keyword argument '" +:+ key
  +:+ "' to method " +:+ method_name.

(** The value a dict built from [items] holds for [key]: that of the last
    item with this key. *)
Fixpoint kwarg (key : string) (items : list (string * pyval))
  : option pyval :=
  match items with
  | [] => None
  | (k, v) :: rest =>
      match kwarg key rest with
      | Some x => Some x
      | None => if bool_decide (k = key) then Some v else None
      end
  end.

(** The first key of [items] that is not in [all_params]. *)
Definition first_unexpected (all_params : list string)
    (items : list (string * pyval)) : option string :=
  fst <$> find (fun kv => negb (bool_decide (kv.1 ∈ all_params))) items.

End BuilderApi.

(** ** class KagBaseModule: the object *)

Module KagBaseModule.

(** The attributes of a module; the four that exist only on a
    computational module are [None] otherwise. *)
Record t := mk {
  llm_module : loc;
  is_computational : bool;
  intermediate_process_tools : loc;
  extra_info_fetch_tools : loc;
  use_default_prompt_template : option bool;
  is_prompt_template_cn : option bool;
  prompt_template_dir : option (option string);
  state_dict : option state_dict
}.

Section Module_.
(** The concrete module's name and template variables, the directory of
    the source file, the current directory, and [llm_module.generate]. *)
Variable module_name : string.
Variable var_names : list string.
Variable source_dir : string.
Variable cwd : string.
Variable generate : loc -> string -> M string.

(** [KagBaseModule(llm_module, ...)]; the files are read and, for a
    computational module, possibly written. *)
Definition __init__ (llm_module : loc)
    (use_default_prompt_template is_prompt_template_cn : bool)
    (prompt_template_dir : option string) (is_computational : bool)
    (fs : gmap string string) : M (t * gmap string string) :=
  processors <- alloc (OList []) ;;
  fetchers <- alloc (OList []) ;;
  if is_computational then
    let '(sd, fs') :=
      init_state_dict module_name var_names source_dir cwd fs
        use_default_prompt_template is_prompt_template_cn
        prompt_template_dir in
    ret (mk llm_module is_computational processors fetchers
            (Some use_default_prompt_template)
            (Some is_prompt_template_cn)
            (Some prompt_template_dir) (Some sd), fs')
  else
    ret (mk llm_module is_computational processors fetchers
            None None None None, fs).

Definition connect_intermediate_process_tools (self : t) (tools : loc) : t :=
  mk (llm_module self) (is_computational self) tools
     (extra_info_fetch_tools self) (use_default_prompt_template self)
     (is_prompt_template_cn self) (prompt_template_dir self)
     (state_dict self).

Definition connect_extra_info_fetch_tools (self : t) (tools : loc) : t :=
  mk (llm_module self) (is_computational self)
     (intermediate_process_tools self) tools
     (use_default_prompt_template self)
     (is_prompt_template_cn self) (prompt_template_dir self)
     (state_dict self).

Definition process_intermediate_info (code : process_code) (fuel : nat)
    (self : t) (info_dict : info) : M unit :=
  if negb (isinstance_StopAsyncIteration info_dict) then
    for_in_list fuel (intermediate_process_tools self) 0
      (fun info_tool => process code info_tool info_dict)
  else ret tt.

(** [return question.question] *)
Definition preprocess (self : t) (question : loc) : M string :=
  q <- get_question question ;;
  match q with
  | {| question := text |} => ret text
  end.

(** [return llm_output] *)
Definition postprocess (self : t) (question : loc) (llm_output : string)
  : M string :=
  ret llm_output.

Definition forward (self : t) (question : loc) : M string :=
  prompt <- preprocess self question ;;
  llm_output <- generate (llm_module self) prompt ;;
  post_processed_output <- postprocess self question llm_output ;;
  ret post_processed_output.

(** [async def async_forward]: awaiting it runs [forward]. *)
Definition async_forward (self : t) (question : loc) : M string :=
  forward self question.
End Module_.

End KagBaseModule.

(** * Properties *)

(** ** Heap access *)

Lemma get_question_ok (w : world) (l : loc) (q : Question) :
  heap w !! l = Some (OQuestion q) -> get_question l w = (Return q, w).
Proof. intros H. unfold get_question, bind, get_obj. by rewrite H. Qed.

Lemma get_list_ok (w : world) (l : loc) (items : list loc) :
  heap w !! l = Some (OList items) -> get_list l w = (Return items, w).
Proof. intros H. unfold get_list, bind, get_obj. by rewrite H. Qed.

Lemma get_agent_ok (w : world) (l : loc) (a : Agent) :
  heap w !! l = Some (OAgent a) -> get_agent l w = (Return a, w).
Proof. intros H. unfold get_agent, bind, get_obj. by rewrite H. Qed.

Lemma is_solved_ok (w : world) (l : loc) (q : Question) :
  heap w !! l = Some (OQuestion q) ->
  is_solved l w = (Return (bool_decide (answer q <> None)), w).
Proof.
  intros H. unfold is_solved, bind. rewrite (get_question_ok _ _ _ H).
  unfold ret. by destruct (answer q).
Qed.

(** A new object does not disturb the ones already there. *)
Lemma lookup_alloc_old (h : list obj) (o : obj) (l : loc) :
  (l < length h)%nat -> (h ++ [o]) !! l = h !! l.
Proof. intros H. by apply lookup_app_l. Qed.

Lemma lookup_alloc_new (h : list obj) (o : obj) :
  (h ++ [o]) !! length h = Some o.
Proof. by apply list_lookup_middle. Qed.

(** ** class Question *)

(** C8: [is_solved()] answers true exactly when [answer] holds a value, and
    it is a pure query: the world it leaves is the world it was given, so no
    node changed. *)
Theorem is_solved_iff_answer_present (w : world) (self : loc) (q : Question) :
  heap w !! self = Some (OQuestion q) ->
  exists b : bool,
    is_solved self w = (Return b, w) /\
    (b = true <-> answer q <> None).
Proof.
  intros H. exists (bool_decide (answer q <> None)). split.
  - by apply is_solved_ok.
  - by rewrite bool_decide_eq_true.
Qed.

(** C10: whatever the constructor is given, the node it builds has
    [answer = None] and [is_solved()] is false on it; the objects that were
    there before are untouched. *)
Theorem Question_init_is_unsolved (defaults : init_defaults)
    (body : string) (deps chs par : option loc) (ctx : option string)
    (w : world) :
  exists (w' : world) (q : Question),
    Question__init__ defaults body deps chs par ctx w
      = (Return (length (heap w)), w') /\
    heap w' !! length (heap w) = Some (OQuestion q) /\
    question q = body /\ parent q = par /\ context q = ctx /\
    answer q = None /\
    is_solved (length (heap w)) w' = (Return false, w') /\
    (forall l, (l < length (heap w))%nat -> heap w' !! l = heap w !! l).
Proof.
  eexists _, _. split; [reflexivity |]. cbn [heap].
  split; [apply lookup_alloc_new |].
  repeat (split; [reflexivity |]).
  split.
  - erewrite is_solved_ok by (cbn [heap]; apply lookup_alloc_new).
    reflexivity.
  - intros l Hl. by apply lookup_alloc_old.
Qed.


Lemma get_current_depth_loop_chain (w : world) (l : loc) (n : nat) :
  parent_chain (heap w) l n ->
  forall (fuel : nat) (acc : Z), (n <= fuel)%nat ->
    get_current_depth_loop fuel l acc w = (Return (acc + Z.of_nat n - 1)%Z, w).
Proof.
  induction 1 as [l q Hl Hp | l q p n Hl Hp Hc IH]; intros fuel acc Hf.
  - destruct fuel as [| fuel]; [lia |]. cbn [get_current_depth_loop].
    unfold bind. rewrite (get_question_ok _ _ _ Hl), Hp. unfold ret.
    do 2 f_equal. lia.
  - destruct fuel as [| fuel]; [lia |]. cbn [get_current_depth_loop].
    unfold bind. rewrite (get_question_ok _ _ _ Hl), Hp.
    rewrite IH by lia. do 2 f_equal. lia.
Qed.

(** C9: on a node whose parent chain has [n] nodes, [get_current_depth]
    returns [n] within [n] tests of the loop condition (and with any larger
    bound), leaving the world as it was; that is 1 on a node without parent
    and 1 plus the parent's depth otherwise. *)
Theorem get_current_depth_walks_parents (w : world) (self : loc) (n : nat) :
  parent_chain (heap w) self n ->
  (forall fuel, (n <= fuel)%nat ->
     get_current_depth fuel self w = (Return (Z.of_nat n), w)) /\
  exists q, heap w !! self = Some (OQuestion q) /\
    match parent q with
    | None => n = 1%nat
    | Some p =>
        exists m, n = S m /\
          get_current_depth m p w = (Return (Z.of_nat m), w) /\
          get_current_depth n self w = (Return (1 + Z.of_nat m)%Z, w)
    end.
Proof.
  intros Hc. split.
  - intros fuel Hf. unfold get_current_depth.
    rewrite (get_current_depth_loop_chain _ _ _ Hc) by done.
    do 2 f_equal. lia.
  - inversion Hc as [l q Hl Hp | l q p m Hl Hp Hm]; subst;
      exists q; (split; [done |]); rewrite Hp; [done |].
    exists m. split; [done |]. unfold get_current_depth. split.
    + rewrite (get_current_depth_loop_chain _ _ _ Hm) by done.
      do 2 f_equal. lia.
    + rewrite (get_current_depth_loop_chain _ _ _ Hc) by done.
      do 2 f_equal. lia.
Qed.

(** ** The gates *)

Lemma get_obj_same_world (l : loc) (w w' : world) (r : result obj) :
  get_obj l w = (r, w') -> w' = w.
Proof. unfold get_obj. intros H. case_match; by simplify_eq. Qed.

Lemma get_question_same_world (l : loc) (w w' : world) (r : result Question) :
  get_question l w = (r, w') -> w' = w.
Proof.
  unfold get_question, bind, get_obj, ret, raise. intros H.
  repeat case_match; by simplify_eq.
Qed.

Lemma get_list_same_world (l : loc) (w w' : world) (r : result (list loc)) :
  get_list l w = (r, w') -> w' = w.
Proof.
  unfold get_list, bind, get_obj, ret, raise. intros H.
  repeat case_match; by simplify_eq.
Qed.

Lemma is_solved_same_world (l : loc) (w w' : world) (r : result bool) :
  is_solved l w = (r, w') -> w' = w.
Proof.
  unfold is_solved, bind. intros H.
  destruct (get_question l w) as [r1 w1] eqn:E.
  apply get_question_same_world in E as ->.
  destruct r1; unfold ret in H; by simplify_eq.
Qed.

(** One poll calls [is_solved] on every member, in order, whatever the
    earlier members answered, and yields the conjunction. *)
Lemma poll_gate_ok (items : list loc) :
  forall (w : world) (acc : bool),
    forallb (is_question_in (heap w)) items = true ->
    poll_gate items acc w =
      (Return (acc && forallb (solved_in (heap w)) items),
       mkWorld (heap w) (clock w) (trace w ++ map EvIsSolved items)).
Proof.
  induction items as [| dep rest IH]; intros w acc Hq.
  - destruct w. cbn. unfold ret. by rewrite andb_true_r, app_nil_r.
  - cbn in Hq. apply andb_true_iff in Hq as [Hd Hr].
    cbn [poll_gate]. unfold bind at 1. unfold log. unfold bind at 1.
    unfold is_question_in in Hd.
    destruct (heap w !! dep) as [[q | | | | | | |] |] eqn:E; try done.
    rewrite (is_solved_ok _ _ q) by done.
    rewrite IH by done. cbn [heap clock trace map forallb].
    unfold solved_in at 2. rewrite E. rewrite <- app_assoc. cbn [app].
    by destruct acc, (bool_decide (answer q <> None)).
Qed.

Lemma poll_gate_clock (items : list loc) :
  forall (acc : bool) (w w' : world) (r : result bool),
    poll_gate items acc w = (r, w') -> clock w' = clock w.
Proof.
  induction items as [| dep rest IH]; intros acc w w' r H.
  - unfold poll_gate, ret in H. by simplify_eq.
  - cbn [poll_gate] in H. unfold bind at 1 in H. unfold log in H.
    unfold bind at 1 in H.
    match type of H with
    | context [is_solved dep ?w0] =>
        destruct (is_solved dep w0) as [r1 w1] eqn:E
    end.
    apply is_solved_same_world in E as ->.
    destruct r1; [apply IH in H; exact H | by simplify_eq ..].
Qed.

Lemma gating_wait_step (others : nat -> list obj -> list obj) (g : gate)
    (fuel : nat) (self question : loc) (w : world) (items : list loc) :
  gate_items g (heap w) question = Some items ->
  gating_wait others g (S fuel) self question w =
    if forallb (solved_in (heap w)) items
    then (Return tt,
          mkWorld (heap w) (clock w) (trace w ++ map EvIsSolved items))
    else gating_wait others g fuel self question
           (mkWorld (others (clock w) (heap w)) (S (clock w))
                    (trace w ++ map EvIsSolved items ++ [EvSleep])).
Proof.
  unfold gate_items. intros H.
  destruct (heap w !! question) as [[q | | | | | | |] |] eqn:Eq; try done.
  destruct (heap w !! gating_set g q) as [[| | its | | | | |] |] eqn:El;
    try done.
  destruct (forallb (is_question_in (heap w)) its) eqn:Ef; [| done].
  simplify_eq.
  destruct g; cbn [gating_wait gating_set] in *;
    cbn [is_question_deps_ready is_question_children_ready];
    unfold bind at 1; rewrite (get_question_ok _ _ _ Eq);
    unfold bind at 1; rewrite (get_list_ok _ _ _ El);
    unfold bind at 1; rewrite (poll_gate_ok _ _ _ Ef);
    cbn [andb]; destruct (forallb (solved_in (heap w)) items);
    try reflexivity;
    unfold bind at 1, sleep; cbn [heap clock trace];
    by rewrite <- app_assoc.
Qed.

Lemma gating_wait_clock (others : nat -> list obj -> list obj) (g : gate)
    (self question : loc) (fuel : nat) :
  forall (w w' : world) (r : result unit),
    gating_wait others g fuel self question w = (r, w') ->
    (clock w <= clock w')%nat.
Proof.
  induction fuel as [| fuel IH]; intros w w' r H.
  - destruct g; cbn in H; unfold pending in H; by simplify_eq.
  - assert (Hstep : exists sel,
      (q <- get_question question ;;
       its <- get_list (sel q) ;;
       all_solved <- poll_gate its true ;;
       if all_solved then ret tt
       else sleep others ;; gating_wait others g fuel self question) w
      = (r, w')).
    { destruct g; [exists dependencies | exists children]; exact H. }
    clear H. destruct Hstep as [sel H].
    unfold bind at 1 in H.
    destruct (get_question question w) as [r1 w1] eqn:E1.
    apply get_question_same_world in E1 as ->.
    destruct r1 as [q | |]; [| by simplify_eq ..].
    unfold bind at 1 in H.
    destruct (get_list (sel q) w) as [r2 w2] eqn:E2.
    apply get_list_same_world in E2 as ->.
    destruct r2 as [its | |]; [| by simplify_eq ..].
    unfold bind at 1 in H.
    destruct (poll_gate its true w) as [r3 w3] eqn:E3.
    apply poll_gate_clock in E3.
    destruct r3 as [[|] | |]; unfold ret in H; try (simplify_eq; lia).
    unfold bind at 1, sleep in H. apply IH in H. cbn in H. lia.
Qed.

Lemma gate_open_items (g : gate) (h : list obj) (question : loc)
    (items : list loc) :
  gate_items g h question = Some items ->
  gate_open g h question = forallb (solved_in h) items.
Proof. unfold gate_open. by intros ->. Qed.

Section Polls.
Variable others : nat -> list obj -> list obj.
Variable g : gate.
Variables self question : loc.

Let typed_until (k : nat) (w : world) : Prop :=
  forall j, (j <= k)%nat ->
    is_Some (gate_items g (heap_at others j (clock w) (heap w)) question).

Let opens_at (k : nat) (w : world) : Prop :=
  gate_open g (heap_at others k (clock w) (heap w)) question = true /\
  forall j, (j < k)%nat ->
    gate_open g (heap_at others j (clock w) (heap w)) question = false.

Lemma gating_wait_returns (k : nat) :
  forall (w : world) (fuel : nat),
    typed_until k w -> (k < fuel)%nat -> opens_at k w ->
    exists w',
      gating_wait others g fuel self question w = (Return tt, w') /\
      clock w' = (clock w + k)%nat /\
      heap w' = heap_at others k (clock w) (heap w).
Proof.
  induction k as [| k IH]; intros w fuel Ht Hf [Ho Hc];
    (destruct fuel as [| fuel]; [lia |]);
    destruct (Ht 0%nat ltac:(lia)) as [items Hi]; cbn [heap_at] in Hi;
    rewrite (gating_wait_step _ _ _ _ _ _ _ Hi).
  - cbn [heap_at] in Ho. rewrite (gate_open_items _ _ _ _ Hi) in Ho.
    rewrite Ho. eexists. split; [reflexivity |]. cbn. split; [lia | done].
  - pose proof (Hc 0%nat ltac:(lia)) as H0. cbn [heap_at] in H0.
    rewrite (gate_open_items _ _ _ _ Hi) in H0. rewrite H0.
    edestruct IH as (w' & Hw & Hk & Hh); [| | | exists w'; split; [exact Hw |]].
    + intros j Hj. apply (Ht (S j)). lia.
    + lia.
    + split; [exact Ho |]. intros j Hj. apply (Hc (S j)). lia.
    + cbn [clock heap] in Hk, Hh. split; [lia | exact Hh].
Qed.

Lemma gating_wait_returned (k : nat) :
  forall (w w' : world) (fuel : nat),
    typed_until k w ->
    gating_wait others g fuel self question w = (Return tt, w') ->
    clock w' = (clock w + k)%nat ->
    (k < fuel)%nat /\ opens_at k w.
Proof.
  induction k as [| k IH]; intros w w' fuel Ht Hr Hk;
    (destruct fuel as [| fuel];
     [destruct g; cbn in Hr; unfold pending in Hr; by simplify_eq |]);
    destruct (Ht 0%nat ltac:(lia)) as [items Hi]; cbn [heap_at] in Hi;
    rewrite (gating_wait_step _ _ _ _ _ _ _ Hi) in Hr;
    pose proof (gate_open_items _ _ _ _ Hi) as Hg;
    destruct (forallb (solved_in (heap w)) items) eqn:Ea.
  - split; [lia |]. split; [exact Hg | intros j Hj; lia].
  - apply gating_wait_clock in Hr. cbn in Hr. lia.
  - simplify_eq. cbn in Hk. lia.
  - apply IH in Hr as (Hf & Ho & Hc).
    + split; [lia |]. split; [exact Ho |].
      intros [| j] Hj; [exact Hg | apply (Hc j); lia].
    + intros j Hj. apply (Ht (S j)). lia.
    + cbn. lia.
Qed.

Lemma gating_wait_pending :
  forall (fuel : nat) (w : world),
    (forall j, (j < fuel)%nat ->
       is_Some (gate_items g (heap_at others j (clock w) (heap w))
                  question)) ->
    (forall j, (j < fuel)%nat ->
       gate_open g (heap_at others j (clock w) (heap w)) question
         = false) ->
    exists w',
      gating_wait others g fuel self question w = (Pending, w') /\
      clock w' = (clock w + fuel)%nat.
Proof.
  induction fuel as [| fuel IH]; intros w Ht Hc.
  - exists w. split; [by destruct g | lia].
  - destruct (Ht 0%nat ltac:(lia)) as [items Hi]. cbn [heap_at] in Hi.
    rewrite (gating_wait_step _ _ _ _ _ _ _ Hi).
    pose proof (Hc 0%nat ltac:(lia)) as H0. cbn [heap_at] in H0.
    rewrite (gate_open_items _ _ _ _ Hi) in H0. rewrite H0.
    edestruct IH as (w' & Hw & Hk); [| | exists w'; split; [exact Hw |]].
    + intros j Hj. apply (Ht (S j)). lia.
    + intros j Hj. apply (Hc (S j)). lia.
    + cbn in Hk. lia.
Qed.
End Polls.

(** C5: a gating wait completes exactly when every member of the gating set
    ([dependencies] for [Deps], [children] for [Children]) is solved.
    Each poll calls [is_solved] on every member, in order, also after an
    unsolved one; the wait returns at the first poll [k] that finds all of
    them solved, after [k] sleeps; on an empty gating set it returns at once,
    the world untouched. *)
Theorem gating_wait_completes_iff_all_solved
    (others : nat -> list obj -> list obj) (g : gate)
    (self question : loc) (w : world) :
  (forall fuel items,
     gate_items g (heap w) question = Some items ->
     gating_wait others g (S fuel) self question w =
       if forallb (solved_in (heap w)) items
       then (Return tt,
             mkWorld (heap w) (clock w) (trace w ++ map EvIsSolved items))
       else gating_wait others g fuel self question
              (mkWorld (others (clock w) (heap w)) (S (clock w))
                       (trace w ++ map EvIsSolved items ++ [EvSleep]))) /\
  (forall k fuel,
     (forall j, (j <= k)%nat ->
        is_Some (gate_items g (heap_at others j (clock w) (heap w))
                   question)) ->
     (exists w',
        gating_wait others g fuel self question w = (Return tt, w') /\
        clock w' = (clock w + k)%nat)
     <->
     ((k < fuel)%nat /\
      gate_open g (heap_at others k (clock w) (heap w)) question = true /\
      forall j, (j < k)%nat ->
        gate_open g (heap_at others j (clock w) (heap w)) question
          = false)) /\
  (forall fuel,
     gate_items g (heap w) question = Some [] ->
     gating_wait others g (S fuel) self question w = (Return tt, w)).
Proof.
  split; [| split].
  - intros fuel items Hi. by apply gating_wait_step.
  - intros k fuel Ht. split.
    + intros (w' & Hr & Hk).
      destruct (gating_wait_returned others g self question k w w' fuel
                  Ht Hr Hk) as (Hf & Ho & Hc).
      by repeat split.
    + intros (Hf & Ho & Hc).
      destruct (gating_wait_returns others g self question k w fuel
                  Ht Hf (conj Ho Hc)) as (w' & Hr & Hk & _).
      by exists w'.
  - intros fuel Hi. rewrite (gating_wait_step _ _ _ _ _ _ _ Hi).
    destruct w. cbn. by rewrite app_nil_r.
Qed.

Lemma gating_wait_completes_iff_all_solved_witness :
  exists w',
    is_question_deps_ready answer_y 5 0 3 w_xy = (Return tt, w') /\
    clock w' = 1%nat.
Proof.
  apply (proj1 (proj2
           (gating_wait_completes_iff_all_solved answer_y Deps 0 3 w_xy))
           1%nat 5%nat).
  - intros [| [| j]] Hj; [vm_compute; eauto .. | lia].
  - split; [lia |]. split; [vm_compute; reflexivity |].
    intros [| j] Hj; [vm_compute; reflexivity | lia].
Defined.

Lemma heap_at_nobody (k c : nat) (h : list obj) : heap_at nobody k c h = h.
Proof. revert c. induction k as [| k IH]; intros c; [done | apply IH]. Qed.

Lemma w_cycle_gate_closed (j : nat) :
  is_Some (gate_items Deps (heap_at nobody j (clock w_cycle) (heap w_cycle))
             2) /\
  gate_open Deps (heap_at nobody j (clock w_cycle) (heap w_cycle)) 2 = false.
Proof. rewrite heap_at_nobody. split; vm_compute; eauto. Qed.

(** C4, as the code has it: when the gate of a node is never found open (as
    with a node that, directly or through others, waits for itself), the
    gating wait raises nothing and never returns: after any number of polls
    it is still waiting, having slept once per poll. *)
Theorem gating_wait_polls_without_bound
    (others : nat -> list obj -> list obj) (g : gate)
    (self question : loc) (w : world) :
  (forall j,
     is_Some (gate_items g (heap_at others j (clock w) (heap w))
                question)) ->
  (forall j,
     gate_open g (heap_at others j (clock w) (heap w)) question = false) ->
  forall fuel, exists w',
    gating_wait others g fuel self question w = (Pending, w') /\
    clock w' = (clock w + fuel)%nat.
Proof.
  intros Ht Hc fuel. apply gating_wait_pending; auto.
Qed.

Lemma gating_wait_polls_without_bound_witness :
  exists w',
    is_question_deps_ready nobody 7 0 2 w_cycle = (Pending, w') /\
    clock w' = 7%nat.
Proof.
  apply (gating_wait_polls_without_bound nobody Deps 0 2 w_cycle
           (fun j => proj1 (w_cycle_gate_closed j))
           (fun j => proj2 (w_cycle_gate_closed j)) 7%nat).
Defined.

(** C4 as stated fails: on a node that depends on itself the wait neither
    raises a stall error nor returns, whatever the number of polls. *)
Lemma self_cycle_never_terminates :
  ~ exists fuel r w',
      is_question_deps_ready nobody fuel 0 2 w_cycle = (r, w') /\
      r <> Pending.
Proof.
  intros (fuel & r & w' & Hr & Hn).
  destruct (gating_wait_pending nobody Deps 0 2 fuel w_cycle
              (fun j _ => proj1 (w_cycle_gate_closed j))
              (fun j _ => proj2 (w_cycle_gate_closed j))) as (w2 & Hp & _).
  cbn [gating_wait] in Hp. congruence.
Qed.

Lemma is_solved_iff_answer_present_witness :
  exists b : bool,
    is_solved 2 w_xy = (Return b, w_xy) /\
    (b = true <-> (None : option string) <> None).
Proof.
  apply (is_solved_iff_answer_present w_xy 2
           {| question := "Y"; dependencies := 0; children := 0;
              parent := None; answer := None; context := None |}).
  reflexivity.
Defined.

Lemma w_family_chain : parent_chain (heap w_family) 3 3.
Proof.
  eapply chain_step; [reflexivity | reflexivity |].
  eapply chain_step; [reflexivity | reflexivity |].
  eapply chain_root; reflexivity.
Defined.

Lemma get_current_depth_walks_parents_witness :
  get_current_depth 3 3 w_family = (Return 3%Z, w_family).
Proof.
  apply (proj1 (get_current_depth_walks_parents w_family 3 3 w_family_chain)
           3%nat).
  lia.
Defined.

(** C3: the code at the failing input.  [a] and [b] are built without
    [dependencies] and [children]; after [a.dependencies.append(c)] and
    [a.children.append(c)], [b.dependencies] and [b.children] hold [c] too:
    the default lists are shared by all nodes. *)
Theorem default_sequences_are_shared :
  fst (two_default_nodes empty_world) = Return ([4%nat], [4%nat]).
Proof. reflexivity. Qed.

(** Whatever the world, nodes built without [dependencies] and [children]
    name the same two list objects. *)
Lemma default_arguments_alias (defaults : init_defaults)
    (body1 body2 : string) (par1 par2 : option loc)
    (ctx1 ctx2 : option string) (w : world) :
  exists a b w' qa qb,
    (a <- Question__init__ defaults body1 None None par1 ctx1 ;;
     b <- Question__init__ defaults body2 None None par2 ctx2 ;;
     ret (a, b)) w = (Return (a, b), w') /\
    a <> b /\
    heap w' !! a = Some (OQuestion qa) /\
    heap w' !! b = Some (OQuestion qb) /\
    dependencies qa = dependencies qb /\
    children qa = children qb.
Proof.
  eexists _, _, _, _, _. split; [reflexivity |]. cbn.
  rewrite length_app. cbn. split; [lia |]. split; [| split].
  - rewrite lookup_app_l by (rewrite length_app; cbn; lia).
    apply lookup_alloc_new.
  - replace (length (heap w) + 1)%nat
      with (length (heap w ++ [OQuestion
              {| question := body1;
                 dependencies := default_dependencies defaults;
                 children := default_children defaults;
                 parent := par1; answer := None; context := ctx1 |}]))
      by (rewrite length_app; reflexivity).
    apply lookup_alloc_new.
  - split; reflexivity.
Qed.

(** ** The intermediate-processor pipeline *)

Lemma process_outcome (code : process_code) (w : world) (t : loc)
    (info_dict : info) (cls : nat) (r : result unit) (h1 : list obj) :
  heap w !! t = Some (OProcessor cls) ->
  code cls t info_dict (trace w) (heap w) = (r, h1) ->
  process code t info_dict w =
    (r, mkWorld h1 (clock w) (trace w ++ [EvProcess t info_dict])).
Proof.
  intros Ht Hc. unfold process, bind, get_obj. by rewrite Ht, Hc.
Qed.

(** The loop over the list object, from entry [length done] on, when every
    call returns and leaves the list as it was. *)
Lemma for_in_list_returns (code : process_code) (info_dict : info)
    (lst : loc) (tools : list loc) (entries : list loc) :
  forall (done : list loc) (w : world) (h_end : list obj) (fuel : nat),
    tools = done ++ entries ->
    heap w !! lst = Some (OList tools) ->
    calls_return code info_dict lst tools entries (trace w) (heap w)
      h_end ->
    (length entries < fuel)%nat ->
    for_in_list fuel lst (length done)
      (fun info_tool => process code info_tool info_dict) w =
      (Return tt,
       mkWorld h_end (clock w)
               (trace w ++ process_calls entries info_dict)).
Proof.
  induction entries as [| t entries IH];
    intros done w h_end fuel Htools Hl Hrun Hf;
    (destruct fuel as [| fuel]; [cbn in Hf; lia |]);
    cbn [for_in_list]; unfold bind at 1; rewrite (get_list_ok _ _ _ Hl).
  - rewrite app_nil_r in Htools. subst done.
    rewrite lookup_ge_None_2 by done. cbn in Hrun. subst h_end.
    destruct w. cbn. unfold ret. by rewrite app_nil_r.
  - destruct Hrun as (cls & h1 & Ht & Hc & Hl1 & Hrun).
    rewrite Htools, list_lookup_middle by done.
    unfold bind. rewrite (process_outcome _ _ _ _ _ _ _ Ht Hc).
    replace (S (length done)) with (length (done ++ [t]))
      by (rewrite length_app; cbn; lia).
    rewrite (IH (done ++ [t]) _ h_end fuel); cbn [heap clock trace].
    + unfold process_calls. cbn [map]. by rewrite <- app_assoc.
    + by rewrite <- app_assoc.
    + exact Hl1.
    + exact Hrun.
    + cbn in Hf. lia.
Qed.

(** The same loop when the calls on [pre] return and leave the list as it
    was, and the call on the next entry does not return. *)
Lemma for_in_list_stops (code : process_code) (info_dict : info)
    (lst : loc) (tools : list loc) (pre : list loc) :
  forall (done : list loc) (w : world) (t : loc) (post : list loc)
         (cls : nat) (r : result unit) (h1 h2 : list obj) (fuel : nat),
    tools = done ++ pre ++ t :: post ->
    heap w !! lst = Some (OList tools) ->
    calls_return code info_dict lst tools pre (trace w) (heap w) h1 ->
    h1 !! t = Some (OProcessor cls) ->
    code cls t info_dict (trace w ++ process_calls pre info_dict) h1
      = (r, h2) ->
    r <> Return tt ->
    (length pre < fuel)%nat ->
    for_in_list fuel lst (length done)
      (fun info_tool => process code info_tool info_dict) w =
      (r,
       mkWorld h2 (clock w)
               (trace w ++ process_calls (pre ++ [t]) info_dict)).
Proof.
  induction pre as [| p pre IH];
    intros done w t post cls r h1 h2 fuel Htools Hl Hrun Ht Hc Hr Hf;
    (destruct fuel as [| fuel]; [cbn in Hf; lia |]);
    cbn [for_in_list]; unfold bind at 1; rewrite (get_list_ok _ _ _ Hl).
  - cbn in Hrun. subst h1. cbn [app] in Htools.
    rewrite Htools, list_lookup_middle by done.
    cbn in Hc. rewrite app_nil_r in Hc.
    unfold bind. rewrite (process_outcome _ _ _ _ _ _ _ Ht Hc).
    destruct r as [[] | e |]; done.
  - destruct Hrun as (clsp & hp & Hp & Hcp & Hlp & Hrun).
    cbn [app] in Htools.
    rewrite Htools, list_lookup_middle by done.
    unfold bind. rewrite (process_outcome _ _ _ _ _ _ _ Hp Hcp).
    replace (S (length done)) with (length (done ++ [p]))
      by (rewrite length_app; cbn; lia).
    rewrite (IH (done ++ [p]) _ t post cls r h1 h2 fuel);
      cbn [heap clock trace].
    + unfold process_calls. cbn [app map]. by rewrite <- app_assoc.
    + by rewrite <- app_assoc.
    + exact Hlp.
    + exact Hrun.
    + exact Ht.
    + unfold process_calls in *. cbn [map] in Hc.
      by rewrite <- app_assoc.
    + exact Hr.
    + cbn in Hf. lia.
Qed.

Lemma invocations_app (t : loc) (info_dict : info) (tr1 tr2 : list event) :
  invocations t info_dict (tr1 ++ tr2) =
    (invocations t info_dict tr1 + invocations t info_dict tr2)%nat.
Proof. apply count_occ_app. Qed.

Lemma invocations_process_calls (t : loc) (info_dict : info)
    (tools : list loc) :
  invocations t info_dict (process_calls tools info_dict) =
    count_occ Nat.eq_dec tools t.
Proof.
  unfold invocations, process_calls.
  induction tools as [| t' rest IH]; [done |].
  cbn [map count_occ]. rewrite IH.
  destruct (event_eq_dec _ _) as [E | E], (Nat.eq_dec t' t) as [E' | E'];
    congruence.
Qed.

(** C2, as the code has it.  For a [StopAsyncIteration] no processor is
    called at all: the world is left as it was.  For a payload (anything
    else), when in this run every call of [process] returns and leaves the
    list of processors as it was, [process] of every entry of
    [intermediate_process_tools] is called with that payload, in list
    order, once per entry: exactly once when the list has no duplicate.
    The processors are arbitrary code; each call is taken in the history
    and the heap that the calls before it have left. *)
Theorem process_intermediate_info_calls_each_processor
    (code : process_code) (w : world) (self : loc) (info_dict : info) :
  (isinstance_StopAsyncIteration info_dict = true ->
     forall fuel,
       process_intermediate_info code fuel self info_dict w
         = (Return tt, w)) /\
  (isinstance_StopAsyncIteration info_dict = false ->
     forall (a : Agent) (tools : list loc) (h_end : list obj) (fuel : nat),
       heap w !! self = Some (OAgent a) ->
       heap w !! intermediate_process_tools a = Some (OList tools) ->
       calls_return code info_dict (intermediate_process_tools a) tools
         tools (trace w) (heap w) h_end ->
       (length tools < fuel)%nat ->
       exists w',
         process_intermediate_info code fuel self info_dict w
           = (Return tt, w') /\
         heap w' = h_end /\
         clock w' = clock w /\
         trace w' = trace w ++ process_calls tools info_dict /\
         (forall t,
            invocations t info_dict (trace w') =
              (invocations t info_dict (trace w)
               + count_occ Nat.eq_dec tools t)%nat) /\
         (List.NoDup tools -> forall t, In t tools ->
            invocations t info_dict (trace w') =
              (invocations t info_dict (trace w) + 1)%nat)).
Proof.
  unfold process_intermediate_info. split; intros Ei; rewrite Ei; cbn [negb].
  - reflexivity.
  - intros a tools h_end fuel Hs Hl Hrun Hf.
    unfold bind at 1. rewrite (get_agent_ok _ _ _ Hs).
    pose proof (for_in_list_returns code info_dict _ tools tools [] w h_end
                  fuel eq_refl Hl Hrun Hf) as Hloop.
    cbn [length] in Hloop. rewrite Hloop.
    eexists. split; [reflexivity |].
    cbn [heap clock trace]. split; [done |]. split; [done |].
    split; [done |].
    assert (Hc : forall t,
      invocations t info_dict (trace w ++ process_calls tools info_dict) =
        (invocations t info_dict (trace w)
         + count_occ Nat.eq_dec tools t)%nat).
    { intros t. by rewrite invocations_app, invocations_process_calls. }
    split; [exact Hc |].
    intros Hnd t Hin. rewrite Hc.
    by rewrite (proj1 (NoDup_count_occ' Nat.eq_dec tools) Hnd t Hin).
Qed.

(** In [w_once] the second processor returns only because it has not seen
    the event before: the run is followed call by call. *)
Lemma w_once_calls_return (info_dict : info) :
  calls_return example_code info_dict 1 [0; 2]%nat [0; 2]%nat
    (trace w_once) (heap w_once) (heap w_once).
Proof.
  exists 0%nat, (heap w_once). repeat split.
  exists 2%nat, (heap w_once). split; [reflexivity |]. split.
  - cbn. rewrite bool_decide_eq_false_2; [reflexivity |].
    intros [H | H]%elem_of_cons; [discriminate H | by apply elem_of_nil in H].
  - split; reflexivity.
Defined.

Lemma process_intermediate_info_calls_each_processor_witness :
  process_intermediate_info example_code 5 5 StopAsyncIteration w_once
    = (Return tt, w_once) /\
  exists w',
    process_intermediate_info example_code 5 5 (InfoDict [("node", "X")])
      w_once
      = (Return tt, w') /\
    heap w' = heap w_once /\
    trace w' = [EvProcess 0 (InfoDict [("node", "X")]);
                EvProcess 2 (InfoDict [("node", "X")])] /\
    invocations 2 (InfoDict [("node", "X")]) (trace w') = 1%nat.
Proof.
  split.
  - apply (proj1 (process_intermediate_info_calls_each_processor
                    example_code w_once 5 StopAsyncIteration) eq_refl 5%nat).
  - destruct (proj2 (process_intermediate_info_calls_each_processor
                       example_code w_once 5 (InfoDict [("node", "X")]))
                eq_refl
                {| queue := None; ready_question_count := None;
                   solved_question_set := None; ready_question_set := None;
                   remaining_question_set := None;
                   extra_info_fetch_tools := 3;
                   intermediate_process_tools := 1;
                   intermediate_process_tasks := 3;
                   extra_output_dict := 4 |}
                [0; 2]%nat (heap w_once) 5%nat eq_refl eq_refl
                (w_once_calls_return (InfoDict [("node", "X")]))
                ltac:(cbn; lia))
      as (w' & Hr & Hh & _ & Ht & _ & Hone).
    exists w'. split; [exact Hr |]. split; [exact Hh |].
    split; [exact Ht |].
    apply (Hone ltac:(repeat constructor; cbn; lia) 2%nat).
    cbn. lia.
Defined.

(** C2 as stated fails: the registered processor is not called with the
    end-of-run marker. *)
Lemma stop_marker_reaches_no_processor :
  process_intermediate_info example_code 5 4 StopAsyncIteration w_quiet
    = (Return tt, w_quiet) /\
  invocations 0 StopAsyncIteration
    (trace (snd (process_intermediate_info example_code 5 4
                   StopAsyncIteration w_quiet)))
    = 0%nat.
Proof. split; reflexivity. Qed.

(** C7, as the code has it: there is no handler around the calls.  When in
    this run the calls on the entries before [t] return and leave the list
    of processors as it was, and the call on [t] raises [e],
    [process_intermediate_info] raises [e] to its caller, having called the
    entries up to [t] and none of those after it.  Each call is taken in
    the history and the heap that the calls before it have left. *)
Theorem process_intermediate_info_propagates_failure
    (code : process_code) (w : world) (self : loc) (a : Agent)
    (pre : list loc) (t : loc) (post : list loc) (info_dict : info)
    (cls : nat) (e : exn) (h1 h2 : list obj) (fuel : nat) :
  heap w !! self = Some (OAgent a) ->
  heap w !! intermediate_process_tools a = Some (OList (pre ++ t :: post)) ->
  isinstance_StopAsyncIteration info_dict = false ->
  calls_return code info_dict (intermediate_process_tools a)
    (pre ++ t :: post) pre (trace w) (heap w) h1 ->
  h1 !! t = Some (OProcessor cls) ->
  code cls t info_dict (trace w ++ process_calls pre info_dict) h1
    = (Raise e, h2) ->
  (length pre < fuel)%nat ->
  process_intermediate_info code fuel self info_dict w =
    (Raise e,
     mkWorld h2 (clock w)
             (trace w ++ process_calls (pre ++ [t]) info_dict)).
Proof.
  intros Hs Hl Hi Hrun Ht Hc Hf. unfold process_intermediate_info.
  rewrite Hi. cbn [negb].
  unfold bind at 1. rewrite (get_agent_ok _ _ _ Hs).
  by apply (for_in_list_stops code info_dict _ (pre ++ t :: post) pre []
              w t post cls (Raise e) h1 h2 fuel).
Qed.

Lemma w_pipeline_calls_return (info_dict : info) :
  calls_return example_code info_dict 2 [0; 1; 0]%nat [0%nat]
    (trace w_pipeline) (heap w_pipeline) (heap w_pipeline).
Proof. exists 0%nat, (heap w_pipeline). repeat split. Defined.

Lemma process_intermediate_info_propagates_failure_witness :
  process_intermediate_info example_code 5 5 (InfoDict []) w_pipeline =
    (Raise (ToolError "boom"),
     mkWorld (heap w_pipeline) 0
             [EvProcess 0 (InfoDict []); EvProcess 1 (InfoDict [])]).
Proof.
  apply (process_intermediate_info_propagates_failure example_code
           w_pipeline 5
           {| queue := None; ready_question_count := None;
              solved_question_set := None; ready_question_set := None;
              remaining_question_set := None;
              extra_info_fetch_tools := 3;
              intermediate_process_tools := 2;
              intermediate_process_tasks := 3;
              extra_output_dict := 4 |}
           [0%nat] 1%nat [0%nat] (InfoDict []) 1%nat (ToolError "boom")
           (heap w_pipeline) (heap w_pipeline) 5%nat).
  - reflexivity.
  - reflexivity.
  - reflexivity.
  - apply w_pipeline_calls_return.
  - reflexivity.
  - reflexivity.
  - cbn. lia.
Defined.

(** C7 as stated fails: a processor that raises makes
    [process_intermediate_info] raise. *)
Lemma failing_processor_crashes_the_pipeline :
  fst (process_intermediate_info example_code 5 5 (InfoDict []) w_pipeline)
    = Raise (ToolError "boom").
Proof. reflexivity. Qed.

(** ** The Agent's run *)

Lemma bind_ret_r {A : Type} (m : M A) (w : world) :
  (x <- m ;; ret x) w = m w.
Proof. unfold bind, ret. by destruct (m w) as [[a | e |] w']. Qed.

Lemma reset_context_ok (w : world) (self : loc) (a : Agent) :
  heap w !! self = Some (OAgent a) ->
  reset_context self w =
    (Return tt,
     mkWorld
       (<[self := OAgent
            {| queue := Some (length (heap w) + 3)%nat;
               ready_question_count := Some 0%Z;
               solved_question_set := Some (length (heap w) + 2)%nat;
               ready_question_set := Some (length (heap w) + 1)%nat;
               remaining_question_set := Some (length (heap w) + 0)%nat;
               extra_info_fetch_tools := extra_info_fetch_tools a;
               intermediate_process_tools := intermediate_process_tools a;
               intermediate_process_tasks := (length (heap w) + 4)%nat;
               extra_output_dict := (length (heap w) + 5)%nat |}]>
          (heap w ++ [OSet ∅; OSet ∅; OSet ∅; OQueue []; OList [];
                      ODict ∅]))
       (clock w) (trace w)).
Proof.
  intros Hs. unfold reset_context. unfold bind at 1.
  rewrite (get_agent_ok _ _ _ Hs). unfold bind, alloc, put_obj.
  cbn [heap clock trace]. rewrite !length_app. cbn [length].
  rewrite <- !app_assoc. cbn [app].
  set (n := length (heap w)).
  replace (n + 1 + 1 + 1 + 1 + 1)%nat with (n + 5)%nat by lia.
  replace (n + 1 + 1 + 1 + 1)%nat with (n + 4)%nat by lia.
  replace (n + 1 + 1 + 1)%nat with (n + 3)%nat by lia.
  replace (n + 1 + 1)%nat with (n + 2)%nat by lia.
  by replace (n + 0)%nat with n by lia.
Qed.

Lemma lookup_fresh_object (h extra : list obj) (self : loc) (o : obj)
    (i : nat) :
  (self < length h)%nat ->
  (<[self := o]> (h ++ extra)) !! (length h + i)%nat = extra !! i.
Proof.
  intros Hlt. rewrite list_lookup_insert_ne by lia.
  rewrite lookup_app_r by lia. f_equal. lia.
Qed.

(** C6: [solve_problem] first resets the per-run state (empty question
    sets, count 0, an empty queue and an empty [extra_output_dict], all of
    them new objects), then runs [solve_problem_impl] in that state; its
    outcome is the outcome of [solve_problem_impl]: the same value when it
    returns, the same exception when it raises. *)
Theorem solve_problem_resets_then_runs {R : Type}
    (impl : loc -> loc -> list (string * string) -> M R)
    (self question : loc) (kwargs : list (string * string))
    (w : world) (a : Agent) :
  heap w !! self = Some (OAgent a) ->
  exists w0 : world,
    reset_context self w = (Return tt, w0) /\
    run_state_is_fresh w w0 self a /\
    solve_problem impl self question kwargs w
      = impl self question kwargs w0 /\
    (forall r w', impl self question kwargs w0 = (Return r, w') ->
       solve_problem impl self question kwargs w = (Return r, w')) /\
    (forall e w', impl self question kwargs w0 = (Raise e, w') ->
       solve_problem impl self question kwargs w = (Raise e, w')).
Proof.
  intros Hs. pose proof (lookup_lt_Some _ _ _ Hs) as Hlt.
  eexists. split; [by apply reset_context_ok |].
  assert (Hrun : solve_problem impl self question kwargs w
                 = impl self question kwargs
                     (snd (reset_context self w))).
  { unfold solve_problem, run_until_complete. unfold bind at 1.
    rewrite (reset_context_ok _ _ _ Hs). cbn [snd]. apply bind_ret_r. }
  rewrite (reset_context_ok _ _ _ Hs) in Hrun. cbn [snd] in Hrun.
  split; [| split; [exact Hrun | split; intros ? ? <-; exact Hrun]].
  set (n := length (heap w)) in *.
  eexists _, (n + 0)%nat, (n + 1)%nat, (n + 2)%nat, (n + 3)%nat.
  cbn [heap clock trace].
  split.
  { apply list_lookup_insert_eq. rewrite length_app. lia. }
  cbn [queue ready_question_count solved_question_set ready_question_set
       remaining_question_set extra_info_fetch_tools
       intermediate_process_tools extra_output_dict].
  unfold n. rewrite !lookup_fresh_object by exact Hlt. fold n.
  repeat (split; [reflexivity |]).
  split.
  { repeat (constructor; [apply lookup_ge_None; lia |]). constructor. }
  split.
  { repeat (constructor; [cbn; lia |]). constructor. }
  repeat split; reflexivity.
Qed.

Lemma solve_problem_resets_then_runs_witness :
  exists w0 : world,
    reset_context 4 w_quiet = (Return tt, w0) /\
    run_state_is_fresh w_quiet w0 4
      {| queue := None; ready_question_count := None;
         solved_question_set := None; ready_question_set := None;
         remaining_question_set := None;
         extra_info_fetch_tools := 2;
         intermediate_process_tools := 1;
         intermediate_process_tasks := 2;
         extra_output_dict := 3 |} /\
    solve_problem (@Agent_solve_problem_impl string) 4 0 [] w_quiet
      = Agent_solve_problem_impl 4 0 [] w0 /\
    (forall r w', @Agent_solve_problem_impl string 4 0 [] w0
                    = (Return r, w') ->
       solve_problem (@Agent_solve_problem_impl string) 4 0 [] w_quiet
         = (Return r, w')) /\
    (forall e w', @Agent_solve_problem_impl string 4 0 [] w0
                    = (Raise e, w') ->
       solve_problem (@Agent_solve_problem_impl string) 4 0 [] w_quiet
         = (Raise e, w')).
Proof.
  apply (solve_problem_resets_then_runs
           (@Agent_solve_problem_impl string) 4 0 [] w_quiet).
  reflexivity.
Defined.

(** C1: the code at the failing input.  A fetcher is connected by
    [Agent.__init__] and writes ["k"] during the run that [solve_problem]
    drives; afterwards the agent's [extra_output_dict] has no ["k"].  The
    same write made straight after construction is visible there. *)
Theorem fetcher_write_is_lost_by_reset :
  fst (run_with_fetcher w_fetcher) = Return None /\
  fst (write_after_init w_fetcher) = Return (Some "v").
Proof. split; vm_compute; reflexivity. Qed.

(** * Further properties of the code *)

(** ** [Question.get_current_depth] *)




Lemma get_current_depth_loop_cycle (P : loc -> Prop) (w : world) :
  (forall l, P l -> exists q p,
     heap w !! l = Some (OQuestion q) /\ parent q = Some p /\ P p) ->
  forall (fuel : nat) (now : loc) (acc : Z),
    P now -> get_current_depth_loop fuel now acc w = (Pending, w).
Proof.
  intros Hcl. induction fuel as [| fuel IH]; intros now acc Hn; [done |].
  destruct (Hcl now Hn) as (q & p & Hq & Hp & HP).
  cbn [get_current_depth_loop]. unfold bind.
  rewrite (get_question_ok _ _ _ Hq), Hp. by apply IH.
Qed.

(** X2: on a node from which every parent step reaches a node that has a
    parent again (a cycle of [parent] references), [get_current_depth]
    never returns and raises nothing: the loop has no guard against
    cycles. *)
Theorem get_current_depth_loops_on_parent_cycle
    (P : loc -> Prop) (w : world) (self : loc) :
  (forall l, P l -> exists q p,
     heap w !! l = Some (OQuestion q) /\ parent q = Some p /\ P p) ->
  P self ->
  forall fuel, get_current_depth fuel self w = (Pending, w).
Proof.
  intros Hcl Hs fuel. unfold get_current_depth.
  by apply get_current_depth_loop_cycle with (P := P).
Qed.

Lemma w_own_parent_closed (l : loc) :
  l = 1%nat -> exists q p,
    heap w_own_parent !! l = Some (OQuestion q) /\ parent q = Some p /\
    p = 1%nat.
Proof. intros ->. eexists _, _. repeat split; reflexivity. Defined.

Lemma get_current_depth_loops_on_parent_cycle_witness :
  get_current_depth 100 1 w_own_parent = (Pending, w_own_parent).
Proof.
  apply (get_current_depth_loops_on_parent_cycle (fun l => l = 1%nat)
           w_own_parent 1 w_own_parent_closed eq_refl 100%nat).
Defined.

(** ** The gates *)

Lemma poll_gate_heap (items : list loc) :
  forall (acc : bool) (w w' : world) (r : result bool),
    poll_gate items acc w = (r, w') -> heap w' = heap w.
Proof.
  induction items as [| dep rest IH]; intros acc w w' r H.
  - unfold poll_gate, ret in H. by simplify_eq.
  - cbn [poll_gate] in H. unfold bind at 1 in H. unfold log in H.
    unfold bind at 1 in H.
    match type of H with
    | context [is_solved dep ?w0] =>
        destruct (is_solved dep w0) as [r1 w1] eqn:E
    end.
    apply is_solved_same_world in E as ->.
    destruct r1; [apply IH in H; exact H | by simplify_eq ..].
Qed.

(** X3: a gating wait writes to no object.  However it ends (returning,
    raising, or still waiting), the heap it leaves is the heap of the start
    as changed by the other tasks during its [k] sleeps, and it slept at
    most once per poll. *)
Theorem gating_wait_is_read_only
    (others : nat -> list obj -> list obj) (g : gate)
    (self question : loc) (fuel : nat) :
  forall (w w' : world) (r : result unit),
    gating_wait others g fuel self question w = (r, w') ->
    exists k, (k <= fuel)%nat /\
      clock w' = (clock w + k)%nat /\
      heap w' = heap_at others k (clock w) (heap w).
Proof.
  induction fuel as [| fuel IH]; intros w w' r H.
  - exists 0%nat. destruct g; cbn in H; unfold pending in H; simplify_eq;
      (split; [lia |]); (split; [lia | done]).
  - assert (Hstep : exists sel,
      (q <- get_question question ;;
       its <- get_list (sel q) ;;
       all_solved <- poll_gate its true ;;
       if all_solved then ret tt
       else sleep others ;; gating_wait others g fuel self question) w
      = (r, w')).
    { destruct g; [exists dependencies | exists children]; exact H. }
    clear H. destruct Hstep as [sel H].
    unfold bind at 1 in H.
    destruct (get_question question w) as [r1 w1] eqn:E1.
    apply get_question_same_world in E1 as ->.
    destruct r1 as [q | |];
      [| exists 0%nat; simplify_eq; (split; [lia |]);
         (split; [lia | done]) ..].
    unfold bind at 1 in H.
    destruct (get_list (sel q) w) as [r2 w2] eqn:E2.
    apply get_list_same_world in E2 as ->.
    destruct r2 as [its | |];
      [| exists 0%nat; simplify_eq; (split; [lia |]);
         (split; [lia | done]) ..].
    unfold bind at 1 in H.
    destruct (poll_gate its true w) as [r3 w3] eqn:E3.
    pose proof (poll_gate_clock _ _ _ _ _ E3) as Hc3.
    pose proof (poll_gate_heap _ _ _ _ _ E3) as Hh3.
    destruct r3 as [[|] | |]; unfold ret in H.
    + exists 0%nat. simplify_eq. split; [lia |]. split; [lia | done].
    + unfold bind at 1, sleep in H. apply IH in H as (k & Hk & Hc & Hh).
      cbn [clock heap] in Hc, Hh. exists (S k). split; [lia |].
      split; [lia |]. cbn [heap_at]. by rewrite Hh, Hc3, Hh3.
    + exists 0%nat. simplify_eq. split; [lia |]. split; [lia | done].
    + exists 0%nat. simplify_eq. split; [lia |]. split; [lia | done].
Qed.

Lemma gating_wait_is_read_only_witness :
  exists k, (k <= 5)%nat /\
    clock (snd (is_question_deps_ready answer_y 5 0 3 w_xy))
      = (clock w_xy + k)%nat /\
    heap (snd (is_question_deps_ready answer_y 5 0 3 w_xy))
      = heap_at answer_y k (clock w_xy) (heap w_xy).
Proof.
  apply (gating_wait_is_read_only answer_y Deps 0 3 5 w_xy _
           (fst (is_question_deps_ready answer_y 5 0 3 w_xy))).
  reflexivity.
Defined.

(** ** [Agent.__init__] and [Agent.reset_context] *)

Lemma for_each_connect (d : loc) (tools : list loc) :
  forall w : world,
    Forall (is_fetcher_in (heap w)) tools ->
    exists w',
      for_each tools
        (fun extra_tool => connect_extra_output_dict extra_tool d) w
        = (Return tt, w') /\
      clock w' = clock w /\ trace w' = trace w /\
      (forall t : nat, In t tools ->
         heap w' !! t = Some (OFetcher (Some d))) /\
      (forall l : nat, ~ In l tools -> heap w' !! l = heap w !! l).
Proof.
  induction tools as [| t rest IH]; intros w Hall.
  - exists w. cbn. by repeat split.
  - apply Forall_cons in Hall as [[c Ht] Hrest].
    pose proof (lookup_lt_Some _ _ _ Ht) as Hlt.
    set (w1 := mkWorld (<[t := OFetcher (Some d)]> (heap w))
                       (clock w) (trace w)).
    assert (H1 : connect_extra_output_dict t d w = (Return tt, w1)).
    { unfold connect_extra_output_dict, bind, get_obj. by rewrite Ht. }
    destruct (IH w1) as (w' & Hr & Hc & Htr & Hin & Hout).
    { eapply Forall_impl; [exact Hrest |]. intros t' [c' Ht'].
      unfold is_fetcher_in, w1. cbn [heap].
      destruct (decide (t = t')) as [<- | Hne].
      - rewrite list_lookup_insert_eq by done. eauto.
      - rewrite list_lookup_insert_ne by done. eauto. }
    exists w'. cbn [for_each]. unfold bind. rewrite H1.
    split; [exact Hr |]. split; [by rewrite Hc |].
    split; [by rewrite Htr |]. split.
    + intros t0 Ht0.
      destruct (in_dec Nat.eq_dec t0 rest) as [Hi | Hi]; [by apply Hin |].
      destruct Ht0 as [<- | Ht0]; [| done].
      rewrite (Hout _ Hi). unfold w1. cbn [heap].
      by apply list_lookup_insert_eq.
    + intros l Hl. cbn [In] in Hl.
      rewrite Hout by tauto. unfold w1. cbn [heap].
      apply list_lookup_insert_ne. tauto.
Qed.

Lemma Agent_init_ok (fetchers processors : loc) (tools : list loc)
    (w : world) :
  heap w !! fetchers = Some (OList tools) ->
  Forall (is_fetcher_in (heap w)) tools ->
  exists w',
    Agent__init__ fetchers processors w
      = (Return (length (heap w) + 2)%nat, w') /\
    clock w' = clock w /\ trace w' = trace w /\
    heap w' !! (length (heap w) + 2)%nat
      = Some (blank_agent fetchers processors (length (heap w))
                (length (heap w) + 1)) /\
    heap w' !! (length (heap w) + 1)%nat = Some (ODict ∅) /\
    heap w' !! length (heap w) = Some (OList []) /\
    (forall t : nat, In t tools ->
       heap w' !! t = Some (OFetcher (Some (length (heap w) + 1)%nat))) /\
    (forall l : nat, (l < length (heap w))%nat -> ~ In l tools ->
       heap w' !! l = heap w !! l).
Proof.
  intros Hl Hall. set (n := length (heap w)).
  set (h3 := heap w ++ [OList []; ODict ∅;
                        blank_agent fetchers processors n (n + 1)]).
  set (w3 := mkWorld h3 (clock w) (trace w)).
  assert (Hold : forall l, (l < n)%nat -> h3 !! l = heap w !! l).
  { intros l Hlt. unfold h3. by apply lookup_app_l. }
  assert (Hnew : forall i, h3 !! (n + i)%nat
            = [OList []; ODict ∅;
               blank_agent fetchers processors n (n + 1)] !! i).
  { intros i. unfold h3. rewrite lookup_app_r by (unfold n; lia).
    f_equal. unfold n. lia. }
  destruct (for_each_connect (n + 1) tools w3)
    as (w' & Hr & Hc & Htr & Hin & Hout).
  { eapply Forall_impl; [exact Hall |]. intros t [c Ht].
    exists c. cbn [heap w3]. rewrite Hold; [done |].
    by eapply lookup_lt_Some. }
  assert (Hnotin : forall i, ~ In (n + i)%nat tools).
  { intros i Hi.
    destruct (proj1 (List.Forall_forall _ _) Hall _ Hi) as [c Hc'].
    apply lookup_lt_Some in Hc'. unfold n in Hc'. lia. }
  exists w'. split.
  - unfold Agent__init__, bind, alloc. cbn [heap clock trace].
    rewrite !length_app. cbn [length]. rewrite <- !app_assoc. cbn [app].
    fold n. replace (n + 1 + 1)%nat with (n + 2)%nat by lia.
    unfold blank_agent in *. fold h3. fold w3.
    rewrite (get_list_ok w3 fetchers tools)
      by (cbn [heap w3]; rewrite Hold;
          [done | by eapply lookup_lt_Some]).
    by rewrite Hr.
  - split; [by rewrite Hc |]. split; [by rewrite Htr |].
    split; [rewrite (Hout _ (Hnotin 2%nat)); apply (Hnew 2%nat) |].
    split; [rewrite (Hout _ (Hnotin 1%nat)); apply (Hnew 1%nat) |].
    split.
    { replace n with (n + 0)%nat at 1 by lia.
      rewrite (Hout _ (Hnotin 0%nat)). apply (Hnew 0%nat). }
    split; [exact Hin |].
    intros l Hlt Hni. rewrite (Hout _ Hni). cbn [heap w3]. by apply Hold.
Qed.

Lemma get_obj_ok (w : world) (l : loc) (o : obj) :
  heap w !! l = Some o -> get_obj l w = (Return o, w).
Proof. intros H. unfold get_obj. by rewrite H. Qed.

(** X4: [Agent(extra_info_fetch_tools, intermediate_process_tools)] over a
    list of fetchers yields a new agent that keeps the two lists it was
    given (by reference), has every per-run attribute [None], owns a new
    empty [extra_output_dict], and has connected every fetcher of the list
    to that very dict; no other object that existed before is changed. *)
Theorem Agent_init_connects_every_fetcher
    (fetchers processors : loc) (tools : list loc) (w : world) :
  heap w !! fetchers = Some (OList tools) ->
  Forall (is_fetcher_in (heap w)) tools ->
  exists (self : nat) (w' : world) (a : Agent),
    Agent__init__ fetchers processors w = (Return self, w') /\
    heap w !! self = None /\
    heap w' !! self = Some (OAgent a) /\
    extra_info_fetch_tools a = fetchers /\
    intermediate_process_tools a = processors /\
    queue a = None /\ ready_question_count a = None /\
    solved_question_set a = None /\ ready_question_set a = None /\
    remaining_question_set a = None /\
    heap w !! extra_output_dict a = None /\
    heap w' !! extra_output_dict a = Some (ODict ∅) /\
    (forall t : nat, In t tools ->
       heap w' !! t = Some (OFetcher (Some (extra_output_dict a)))) /\
    (forall l : nat, (l < length (heap w))%nat -> ~ In l tools ->
       heap w' !! l = heap w !! l).
Proof.
  intros Hl Hall.
  destruct (Agent_init_ok fetchers processors tools w Hl Hall)
    as (w' & Hr & _ & _ & Hs & Hd & _ & Hin & Hout).
  eexists _, w', _. split; [exact Hr |].
  split; [apply lookup_ge_None; lia |].
  split; [exact Hs |]. cbn.
  repeat (split; [reflexivity |]).
  split; [apply lookup_ge_None; lia |].
  split; [exact Hd |]. split; [exact Hin | exact Hout].
Qed.

Lemma w_fetcher_tools : Forall (is_fetcher_in (heap w_fetcher)) [0%nat].
Proof. constructor; [by exists None | constructor]. Defined.

Lemma Agent_init_connects_every_fetcher_witness :
  exists (self : nat) (w' : world) (a : Agent),
    Agent__init__ 1 2 w_fetcher = (Return self, w') /\
    heap w_fetcher !! self = None /\
    heap w' !! self = Some (OAgent a) /\
    extra_info_fetch_tools a = 1%nat /\
    intermediate_process_tools a = 2%nat /\
    queue a = None /\ ready_question_count a = None /\
    solved_question_set a = None /\ ready_question_set a = None /\
    remaining_question_set a = None /\
    heap w_fetcher !! extra_output_dict a = None /\
    heap w' !! extra_output_dict a = Some (ODict ∅) /\
    (forall t : nat, In t [0%nat] ->
       heap w' !! t = Some (OFetcher (Some (extra_output_dict a)))) /\
    (forall l : nat, (l < length (heap w_fetcher))%nat -> ~ In l [0%nat] ->
       heap w' !! l = heap w_fetcher !! l).
Proof.
  apply (Agent_init_connects_every_fetcher 1 2 [0%nat] w_fetcher).
  - reflexivity.
  - apply w_fetcher_tools.
Defined.

(** X5: before any run, what a connected fetcher writes is read back
    through the agent: after [Agent(...)], a write of [k] to [v] by any
    fetcher of the list makes [agent.extra_output_dict.get(k)] be [v]. *)
Theorem fetcher_write_visible_after_init
    (fetchers processors : loc) (tools : list loc) (t : loc)
    (k v : string) (w : world) :
  heap w !! fetchers = Some (OList tools) ->
  Forall (is_fetcher_in (heap w)) tools ->
  In t tools ->
  fst (write_then_read fetchers processors t k v w) = Return (Some v).
Proof.
  intros Hl Hall Ht.
  destruct (Agent_init_ok fetchers processors tools w Hl Hall)
    as (w' & Hr & _ & _ & Hs & Hd & _ & Hin & _).
  pose proof (lookup_lt_Some _ _ _ Hd) as Hlt.
  unfold write_then_read. unfold bind at 1. rewrite Hr.
  unfold bind at 1. unfold fetcher_write. unfold bind at 1.
  rewrite (get_obj_ok _ _ _ (Hin t Ht)).
  unfold bind at 1. rewrite (get_obj_ok _ _ _ Hd).
  unfold put_obj. cbn [heap clock trace].
  unfold bind at 1. erewrite get_agent_ok; cycle 1.
  { cbn [heap]. rewrite list_lookup_insert_ne by lia. exact Hs. }
  unfold bind at 1. unfold get_dict, bind, get_obj. cbn [heap].
  cbn [extra_output_dict]. rewrite list_lookup_insert_eq by exact Hlt.
  unfold ret. cbn [fst]. by rewrite lookup_insert_eq.
Qed.

Lemma fetcher_write_visible_after_init_witness :
  fst (write_then_read 1 2 0 "k" "v" w_fetcher) = Return (Some "v").
Proof.
  apply (fetcher_write_visible_after_init 1 2 [0%nat] 0 "k" "v" w_fetcher).
  - reflexivity.
  - apply w_fetcher_tools.
  - cbn. lia.
Defined.

Lemma reset_context_frame (w : world) (self : loc) (a : Agent) (l : nat) :
  heap w !! self = Some (OAgent a) ->
  (l < length (heap w))%nat -> l <> self ->
  heap (snd (reset_context self w)) !! l = heap w !! l.
Proof.
  intros Hs Hlt Hne. rewrite (reset_context_ok _ _ _ Hs). cbn [snd heap].
  rewrite list_lookup_insert_ne by done. by apply lookup_app_l.
Qed.

Lemma reset_context_new_dict (w : world) (self : loc) (a : Agent) :
  heap w !! self = Some (OAgent a) ->
  exists a0,
    heap (snd (reset_context self w)) !! self = Some (OAgent a0) /\
    extra_output_dict a0 = (length (heap w) + 5)%nat /\
    queue a0 = Some (length (heap w) + 3)%nat /\
    remaining_question_set a0 = Some (length (heap w) + 0)%nat /\
    ready_question_set a0 = Some (length (heap w) + 1)%nat /\
    solved_question_set a0 = Some (length (heap w) + 2)%nat /\
    length (heap (snd (reset_context self w)))
      = (length (heap w) + 6)%nat.
Proof.
  intros Hs. pose proof (lookup_lt_Some _ _ _ Hs) as Hlt.
  rewrite (reset_context_ok _ _ _ Hs). cbn [snd heap].
  eexists. split.
  - apply list_lookup_insert_eq. rewrite length_app. lia.
  - cbn. rewrite length_insert, length_app. by repeat split.
Qed.

(** X6: [reset_context] rebinds, it does not clear.  A fetcher connected
    to a dict before the reset is connected to the same dict afterwards,
    that dict keeps its entries, and the agent's [extra_output_dict] is now
    another object; every object other than the agent is left as it was. *)
Theorem reset_context_leaves_fetchers_on_old_dict
    (w : world) (self t d : loc) (a : Agent) (m : gmap string string) :
  heap w !! self = Some (OAgent a) ->
  heap w !! t = Some (OFetcher (Some d)) ->
  heap w !! d = Some (ODict m) ->
  exists (w0 : world) (a0 : Agent),
    reset_context self w = (Return tt, w0) /\
    heap w0 !! self = Some (OAgent a0) /\
    heap w0 !! t = Some (OFetcher (Some d)) /\
    heap w0 !! d = Some (ODict m) /\
    extra_output_dict a0 <> d /\
    heap w0 !! extra_output_dict a0 = Some (ODict ∅) /\
    (forall l : nat, (l < length (heap w))%nat -> l <> self ->
       heap w0 !! l = heap w !! l).
Proof.
  intros Hs Ht Hd.
  pose proof (lookup_lt_Some _ _ _ Hs) as Hlts.
  pose proof (lookup_lt_Some _ _ _ Ht) as Hltt.
  pose proof (lookup_lt_Some _ _ _ Hd) as Hltd.
  destruct (reset_context_new_dict w self a Hs)
    as (a0 & Ha0 & Hda & _).
  pose proof (fun l => reset_context_frame w self a l Hs) as Hfr.
  rewrite (reset_context_ok _ _ _ Hs) in Ha0, Hfr.
  cbn [snd] in Ha0, Hfr.
  eexists _, a0. split; [by apply reset_context_ok |].
  split; [exact Ha0 |].
  split; [rewrite Hfr; [done | done | congruence] |].
  split; [rewrite Hfr; [done | done | congruence] |].
  split; [lia |].
  split; [| intros l Hl Hne; by apply Hfr].
  rewrite Hda. cbn [heap]. by rewrite lookup_fresh_object.
Qed.

Lemma reset_context_leaves_fetchers_on_old_dict_witness :
  exists (w0 : world) (a0 : Agent),
    reset_context 4 w_connected = (Return tt, w0) /\
    heap w0 !! 4%nat = Some (OAgent a0) /\
    heap w0 !! 0%nat = Some (OFetcher (Some 3%nat)) /\
    heap w0 !! 3%nat = Some (ODict {[ "k" := "v" ]}) /\
    extra_output_dict a0 <> 3%nat /\
    heap w0 !! extra_output_dict a0 = Some (ODict ∅) /\
    (forall l : nat, (l < length (heap w_connected))%nat -> l <> 4%nat ->
       heap w0 !! l = heap w_connected !! l).
Proof.
  apply (reset_context_leaves_fetchers_on_old_dict w_connected 4 0 3
           {| queue := None; ready_question_count := None;
              solved_question_set := None; ready_question_set := None;
              remaining_question_set := None;
              extra_info_fetch_tools := 1;
              intermediate_process_tools := 2;
              intermediate_process_tasks := 2;
              extra_output_dict := 3 |}
           {[ "k" := "v" ]}); reflexivity.
Defined.

(** X7: two runs share no per-run object.  After a second [reset_context]
    the agent's dict, queue and three sets are all different objects from
    those of the first, and the first run's dict is still what it was. *)
Theorem reset_context_twice_shares_nothing
    (w : world) (self : loc) (a : Agent) :
  heap w !! self = Some (OAgent a) ->
  exists (w1 w2 : world) (a1 a2 : Agent),
    reset_context self w = (Return tt, w1) /\
    heap w1 !! self = Some (OAgent a1) /\
    reset_context self w1 = (Return tt, w2) /\
    heap w2 !! self = Some (OAgent a2) /\
    extra_output_dict a2 <> extra_output_dict a1 /\
    queue a2 <> queue a1 /\
    remaining_question_set a2 <> remaining_question_set a1 /\
    ready_question_set a2 <> ready_question_set a1 /\
    solved_question_set a2 <> solved_question_set a1 /\
    heap w2 !! extra_output_dict a1 = heap w1 !! extra_output_dict a1.
Proof.
  intros Hs. pose proof (lookup_lt_Some _ _ _ Hs) as Hlt.
  destruct (reset_context_new_dict w self a Hs)
    as (a1 & Ha1 & Hd1 & Hq1 & Hrem1 & Hrdy1 & Hsol1 & Hlen1).
  destruct (reset_context_new_dict _ self a1 Ha1)
    as (a2 & Ha2 & Hd2 & Hq2 & Hrem2 & Hrdy2 & Hsol2 & _).
  pose proof (reset_context_frame _ self a1 (extra_output_dict a1) Ha1)
    as Hfr.
  exists (snd (reset_context self w)),
         (snd (reset_context self (snd (reset_context self w)))), a1, a2.
  split; [by rewrite (reset_context_ok _ _ _ Hs) |].
  split; [exact Ha1 |].
  split; [by rewrite (reset_context_ok _ _ _ Ha1) |].
  split; [exact Ha2 |].
  split; [| split; [| split; [| split; [| split]]]].
  6: { apply Hfr; lia. }
  all: rewrite ?Hd2, ?Hq2, ?Hrem2, ?Hrdy2, ?Hsol2, ?Hd1, ?Hq1, ?Hrem1,
         ?Hrdy1, ?Hsol1, ?Hlen1; intros ?; simplify_eq; lia.
Qed.

Lemma reset_context_twice_shares_nothing_witness :
  exists (w1 w2 : world) (a1 a2 : Agent),
    reset_context 4 w_connected = (Return tt, w1) /\
    heap w1 !! 4%nat = Some (OAgent a1) /\
    reset_context 4 w1 = (Return tt, w2) /\
    heap w2 !! 4%nat = Some (OAgent a2) /\
    extra_output_dict a2 <> extra_output_dict a1 /\
    queue a2 <> queue a1 /\
    remaining_question_set a2 <> remaining_question_set a1 /\
    ready_question_set a2 <> ready_question_set a1 /\
    solved_question_set a2 <> solved_question_set a1 /\
    heap w2 !! extra_output_dict a1 = heap w1 !! extra_output_dict a1.
Proof.
  apply (reset_context_twice_shares_nothing w_connected 4
           {| queue := None; ready_question_count := None;
              solved_question_set := None; ready_question_set := None;
              remaining_question_set := None;
              extra_info_fetch_tools := 1;
              intermediate_process_tools := 2;
              intermediate_process_tasks := 2;
              extra_output_dict := 3 |}).
  reflexivity.
Defined.

(** X8: an [Agent] whose class does not override [solve_problem_impl]
    cannot solve anything: [solve_problem] raises [NotImplementedError]
    for every question and options, and by then the per-run state has
    already been reset. *)
Theorem base_solve_problem_raises_NotImplementedError {R : Type}
    (self question : loc) (kwargs : list (string * string))
    (w : world) (a : Agent) :
  heap w !! self = Some (OAgent a) ->
  exists w0 : world,
    reset_context self w = (Return tt, w0) /\
    solve_problem (@Agent_solve_problem_impl R) self question kwargs w
      = (Raise NotImplementedError, w0).
Proof.
  intros Hs. eexists. split; [by apply reset_context_ok |].
  unfold solve_problem, run_until_complete. unfold bind at 1.
  by rewrite (reset_context_ok _ _ _ Hs).
Qed.

Lemma base_solve_problem_raises_NotImplementedError_witness :
  exists w0 : world,
    reset_context 4 w_connected = (Return tt, w0) /\
    solve_problem (@Agent_solve_problem_impl string) 4 0 [] w_connected
      = (Raise NotImplementedError, w0).
Proof.
  apply (base_solve_problem_raises_NotImplementedError 4 0 [] w_connected
           {| queue := None; ready_question_count := None;
              solved_question_set := None; ready_question_set := None;
              remaining_question_set := None;
              extra_info_fetch_tools := 1;
              intermediate_process_tools := 2;
              intermediate_process_tasks := 2;
              extra_output_dict := 3 |}).
  reflexivity.
Defined.

(** ** [process_intermediate_info] over a list that changes *)

(** X9: the loop of [process_intermediate_info] walks the list object
    itself.  When the call on the first entry returns having taken that
    entry off the list, the loop goes on at the second place of the
    shortened list: the entry that followed is passed over without any
    error.  With two entries, [process_intermediate_info] returns after
    that single call, and the second processor has not been called. *)
Theorem leaving_processor_hides_the_next
    (code : process_code) (w : world) (self : loc) (a : Agent)
    (t1 t2 : loc) (post : list loc) (info_dict : info) (cls : nat)
    (h1 : list obj) (fuel : nat) :
  heap w !! self = Some (OAgent a) ->
  heap w !! intermediate_process_tools a = Some (OList (t1 :: t2 :: post)) ->
  isinstance_StopAsyncIteration info_dict = false ->
  heap w !! t1 = Some (OProcessor cls) ->
  code cls t1 info_dict (trace w) (heap w) = (Return tt, h1) ->
  h1 !! intermediate_process_tools a = Some (OList (t2 :: post)) ->
  process_intermediate_info code (S fuel) self info_dict w
  = for_in_list fuel (intermediate_process_tools a) 1
      (fun info_tool => process code info_tool info_dict)
      (mkWorld h1 (clock w) (trace w ++ [EvProcess t1 info_dict])) /\
  (post = [] -> (0 < fuel)%nat ->
   process_intermediate_info code (S fuel) self info_dict w
   = (Return tt,
      mkWorld h1 (clock w) (trace w ++ [EvProcess t1 info_dict])) /\
   (t2 <> t1 ->
    invocations t2 info_dict
      (trace (snd (process_intermediate_info code (S fuel) self
                     info_dict w)))
    = invocations t2 info_dict (trace w))).
Proof.
  intros Hs Hl Hi Ht Hc Hl1.
  assert (Hstep :
    process_intermediate_info code (S fuel) self info_dict w
    = for_in_list fuel (intermediate_process_tools a) 1
        (fun info_tool => process code info_tool info_dict)
        (mkWorld h1 (clock w) (trace w ++ [EvProcess t1 info_dict]))).
  { unfold process_intermediate_info. rewrite Hi. cbn [negb].
    unfold bind at 1. rewrite (get_agent_ok _ _ _ Hs).
    cbn [for_in_list]. unfold bind at 1. rewrite (get_list_ok _ _ _ Hl).
    cbn [lookup list_lookup]. unfold bind.
    by rewrite (process_outcome _ _ _ _ _ _ _ Ht Hc). }
  split; [exact Hstep |]. intros -> Hf.
  assert (Hend :
    process_intermediate_info code (S fuel) self info_dict w
    = (Return tt,
       mkWorld h1 (clock w) (trace w ++ [EvProcess t1 info_dict]))).
  { rewrite Hstep. destruct fuel as [| fuel]; [lia |].
    cbn [for_in_list]. unfold bind.
    by erewrite get_list_ok by (cbn [heap]; exact Hl1). }
  split; [exact Hend |]. intros Hne. rewrite Hend. cbn [snd trace].
  rewrite invocations_app. unfold invocations at 2. cbn [count_occ].
  destruct (event_eq_dec _ _) as [E | E]; [congruence | lia].
Qed.

Lemma leaving_processor_hides_the_next_witness :
  process_intermediate_info example_code 5 5 (InfoDict []) w_leaver
  = (Return tt,
     mkWorld (<[1%nat := OList [2%nat]]> (heap w_leaver)) 0
             [EvProcess 0 (InfoDict [])]).
Proof.
  apply (proj2 (leaving_processor_hides_the_next example_code w_leaver 5
                  {| queue := None; ready_question_count := None;
                     solved_question_set := None;
                     ready_question_set := None;
                     remaining_question_set := None;
                     extra_info_fetch_tools := 3;
                     intermediate_process_tools := 1;
                     intermediate_process_tasks := 3;
                     extra_output_dict := 4 |}
                  0 2 [] (InfoDict []) 3
                  (<[1%nat := OList [2%nat]]> (heap w_leaver)) 4
                  eq_refl eq_refl eq_refl eq_refl eq_refl eq_refl)
           eq_refl ltac:(lia)).
Defined.

(** ** The prompt-template text *)

Lemma string_app_cons (c : ascii) (r s : string) :
  String c r +:+ s = String c (r +:+ s).
Proof. reflexivity. Qed.

Lemma string_app_nil (s : string) : "" +:+ s = s.
Proof. reflexivity. Qed.

Ltac string_app := rewrite ?string_app_cons, ?string_app_nil.

Lemma prefix_dollar_head (x : string) (c : ascii) (rest : string) :
  Ascii.eqb c "$"%char = false ->
  String.prefix (String "$"%char x) (String c rest) = false.
Proof.
  intros Hc. cbn [String.prefix].
  destruct (ascii_dec "$"%char c) as [<- | _]; [done | done].
Qed.

Lemma replace_scan_dollar_free (x new s : string) :
  dollar_free s = true -> replace_scan (String "$"%char x) new s 0 = s.
Proof.
  induction s as [| c rest IH]; [done |]. cbn [dollar_free].
  intros [Hc Hr]%andb_true_iff. apply negb_true_iff in Hc.
  cbn [replace_scan]. rewrite (prefix_dollar_head _ _ _ Hc).
  by rewrite IH.
Qed.

Lemma replace_scan_app_dollar_free (x new a s : string) :
  dollar_free a = true ->
  replace_scan (String "$"%char x) new (a +:+ s) 0
    = a +:+ replace_scan (String "$"%char x) new s 0.
Proof.
  induction a as [| c rest IH]; [done |]. cbn [dollar_free].
  intros [Hc Hr]%andb_true_iff. apply negb_true_iff in Hc.
  string_app. cbn [replace_scan]. rewrite (prefix_dollar_head _ _ _ Hc).
  by rewrite IH.
Qed.

Lemma replace_scan_skip (old new p s : string) :
  replace_scan old new (p +:+ s) (String.length p)
    = replace_scan old new s 0.
Proof. induction p as [| c rest IH]; [done | string_app; exact IH]. Qed.

Lemma prefix_split (u w : string) :
  String.prefix u w = true -> exists w', w = u +:+ w'.
Proof.
  revert w. induction u as [| c u IH]; intros w H; [by exists w |].
  destruct w as [| c' w]; [done |]. cbn [String.prefix] in H.
  destruct (ascii_dec c c') as [<- | _]; [| done].
  destruct (IH _ H) as [w' ->]. exists w'. by string_app.
Qed.

Lemma dollar_free_app (a b : string) :
  dollar_free (a +:+ b) = dollar_free a && dollar_free b.
Proof.
  induction a as [| c a IH]; [done |]. string_app. cbn [dollar_free].
  rewrite IH. by rewrite andb_assoc.
Qed.

Lemma prefix_empty (s : string) : String.prefix "" s = true.
Proof. by destruct s. Qed.

Lemma str_replace_double (s : string) :
  str_replace "$" "$$" s = double_dollars s.
Proof.
  unfold str_replace. induction s as [| c rest IH]; [done |].
  cbn [replace_scan double_dollars String.prefix].
  destruct (ascii_dec "$"%char c) as [<- | Hne].
  - rewrite prefix_empty. string_app. cbn [String.length Nat.sub].
    by rewrite IH.
  - rewrite IH. destruct (Ascii.eqb c "$"%char) eqn:E; [| done].
    apply Ascii.eqb_eq in E. congruence.
Qed.

Lemma double_dollars_free (s : string) :
  dollar_free s = true -> double_dollars s = s.
Proof.
  induction s as [| c rest IH]; [done |]. cbn.
  intros [Hc Hr]%andb_true_iff. apply negb_true_iff in Hc.
  by rewrite Hc, IH.
Qed.

Lemma double_dollars_app (a b : string) :
  double_dollars (a +:+ b) = double_dollars a +:+ double_dollars b.
Proof.
  induction a as [| c a IH]; [done |]. string_app. cbn [double_dollars].
  rewrite IH. by destruct (Ascii.eqb c "$"%char); string_app.
Qed.

(** The step of the loop on a text with a single, doubled dollar sign. *)
Lemma unescape_doubled (u a w : string) :
  dollar_free a = true -> dollar_free w = true ->
  str_replace ("$$" +:+ u) ("$" +:+ u) (a +:+ "$$" +:+ w)
    = if String.prefix u w then a +:+ "$" +:+ w else a +:+ "$$" +:+ w.
Proof.
  intros Ha Hw. string_app. cbn [str_replace].
  rewrite (replace_scan_app_dollar_free _ _ _ _ Ha). f_equal.
  string_app. cbn [replace_scan String.prefix].
  destruct (ascii_dec "$"%char "$"%char) as [_ | Hne]; [| done].
  destruct (String.prefix u w) eqn:Ep.
  - destruct (prefix_split _ _ Ep) as [w' ->].
    rewrite dollar_free_app in Hw. apply andb_true_iff in Hw as [_ Hw'].
    cbn [String.length Nat.sub replace_scan]. string_app.
    rewrite replace_scan_skip.
    by rewrite (replace_scan_dollar_free _ _ _ Hw').
  - f_equal. destruct w as [| c w]; [done |].
    cbn [dollar_free] in Hw. apply andb_true_iff in Hw as [Hc Hw'].
    apply negb_true_iff in Hc. cbn [replace_scan String.prefix].
    destruct (ascii_dec "$"%char "$"%char) as [_ | Hne]; [| done].
    destruct (ascii_dec "$"%char c) as [<- | _]; [done |].
    cbn [replace_scan].
    by rewrite ?(prefix_dollar_head _ _ _ Hc),
         ?(replace_scan_dollar_free _ _ _ Hw').
Qed.

(** The step of the loop on a text with a single dollar sign. *)
Lemma unescape_single (u a w : string) :
  dollar_free a = true -> dollar_free w = true ->
  str_replace ("$$" +:+ u) ("$" +:+ u) (a +:+ "$" +:+ w)
    = a +:+ "$" +:+ w.
Proof.
  intros Ha Hw. string_app. cbn [str_replace].
  rewrite (replace_scan_app_dollar_free _ _ _ _ Ha). f_equal.
  string_app. destruct w as [| c w]; [done |].
  cbn [dollar_free] in Hw. apply andb_true_iff in Hw as [Hc Hw'].
  apply negb_true_iff in Hc. cbn [replace_scan String.prefix].
  destruct (ascii_dec "$"%char "$"%char) as [_ | Hne]; [| done].
  destruct (ascii_dec "$"%char c) as [<- | _]; [done |].
  cbn [replace_scan].
  by rewrite ?(prefix_dollar_head _ _ _ Hc),
       ?(replace_scan_dollar_free _ _ _ Hw').
Qed.

Lemma unescape_all_single (vars : list string) (a w : string) :
  dollar_free a = true -> dollar_free w = true ->
  fold_left
    (fun new_template_str var =>
       str_replace ("$$" +:+ var) ("$" +:+ var) new_template_str)
    vars (a +:+ "$" +:+ w)
  = a +:+ "$" +:+ w.
Proof.
  intros Ha Hw. induction vars as [| u vars IH]; [done |].
  cbn [fold_left]. by rewrite unescape_single.
Qed.

Lemma unescape_all_free (vars : list string) (t : string) :
  dollar_free t = true ->
  fold_left
    (fun new_template_str var =>
       str_replace ("$$" +:+ var) ("$" +:+ var) new_template_str)
    vars t
  = t.
Proof.
  intros Ht. induction vars as [| u vars IH]; [done |].
  cbn [fold_left]. string_app. cbn [str_replace].
  by rewrite (replace_scan_dollar_free _ _ _ Ht).
Qed.

Lemma length_double_dollars (t : string) :
  String.length (double_dollars t)
    = (String.length t + count_dollars t)%nat.
Proof.
  induction t as [| c t IH]; [done |]. cbn [double_dollars count_dollars].
  destruct (Ascii.eqb c "$"%char); cbn [String.length]; rewrite IH; lia.
Qed.

(** X10: for a module without template variables, escaping doubles every
    dollar sign and keeps every other character: the result is the text
    with each ["$"] written ["$$"], longer than the text by its number of
    dollar signs. *)
Theorem escaping_without_variables_doubles_dollars (t : string) :
  process_template_string_to_avoid_doller_problem [] t = double_dollars t /\
  String.length (process_template_string_to_avoid_doller_problem [] t)
    = (String.length t + count_dollars t)%nat.
Proof.
  unfold process_template_string_to_avoid_doller_problem. cbn [fold_left].
  rewrite str_replace_double. split; [done | apply length_double_dollars].
Qed.

(** X11: a template text without any dollar sign comes out of the escaping
    unchanged, whatever the variable names are. *)
Theorem escaping_keeps_dollar_free_text (vars : list string) (t : string) :
  dollar_free t = true ->
  process_template_string_to_avoid_doller_problem vars t = t.
Proof.
  intros Ht. unfold process_template_string_to_avoid_doller_problem.
  rewrite str_replace_double, (double_dollars_free _ Ht).
  by apply unescape_all_free.
Qed.

Lemma escaping_keeps_dollar_free_text_witness :
  process_template_string_to_avoid_doller_problem
    ["question"; "context"] "Answer briefly."
  = "Answer briefly.".
Proof.
  apply (escaping_keeps_dollar_free_text ["question"; "context"]
           "Answer briefly.").
  reflexivity.
Defined.

(** X12: on a text with one dollar sign, [a$w], the dollar sign is kept
    single exactly when some variable name is a prefix of what follows it,
    and doubled otherwise.  So [$name] stays a placeholder for a variable
    [name], a price like [$5] becomes [$$5], and a dollar sign followed by
    a longer word that merely starts with a variable name is not escaped
    either. *)
Theorem escaping_one_dollar (vars : list string) (a w : string) :
  dollar_free a = true -> dollar_free w = true ->
  process_template_string_to_avoid_doller_problem vars (a +:+ "$" +:+ w)
  = if existsb (fun var => String.prefix var w) vars
    then a +:+ "$" +:+ w
    else a +:+ "$$" +:+ w.
Proof.
  intros Ha Hw. unfold process_template_string_to_avoid_doller_problem.
  rewrite str_replace_double, double_dollars_app, (double_dollars_free _ Ha).
  string_app. cbn [double_dollars Ascii.eqb Bool.eqb].
  rewrite (double_dollars_free _ Hw).
  change (String "$" (String "$" w)) with ("$$" +:+ w).
  induction vars as [| u vars IH]; [done |].
  cbn [fold_left existsb]. rewrite (unescape_doubled _ _ _ Ha Hw).
  destruct (String.prefix u w); cbn [orb].
  - by apply unescape_all_single.
  - exact IH.
Qed.

Lemma escaping_one_dollar_witness :
  process_template_string_to_avoid_doller_problem ["name"]
    ("Dear " +:+ "$" +:+ "names, pay")
  = "Dear " +:+ "$" +:+ "names, pay".
Proof.
  apply (escaping_one_dollar ["name"] "Dear " "names, pay"); reflexivity.
Defined.

(** ** Loading and saving the prompt template *)

Lemma does_state_dict_exists_path (module_name : string)
    (fs : gmap string string) (save_dir : string) :
  does_state_dict_exists module_name fs save_dir
  = bool_decide (is_Some
      (fs !! path_join (path_join save_dir ["prompt_template"])
                [module_name +:+ ".txt"])).
Proof. reflexivity. Qed.

Lemma universal_newlines_cr_free (s : string) :
  cr_free s = true -> universal_newlines s = s.
Proof.
  induction s as [| c rest IH]; [done |]. cbn [cr_free universal_newlines].
  intros [Hc Hr]%andb_true_iff. apply negb_true_iff in Hc.
  by rewrite Hc, IH.
Qed.

(** X13: saving a state dict and loading it back from the same directory
    does not return the saved text: it returns the saved text with its
    line ends translated by the read, and then escaped once more.  The
    state dict comes back unchanged when its text has neither a dollar
    sign nor a carriage return. *)
Theorem load_after_save_escapes_again
    (module_name : string) (var_names : list string)
    (fs : gmap string string) (save_dir : string) (sd : state_dict) :
  template (prompt_template
    (load_state_dict module_name var_names
       (save_state_dict module_name fs save_dir sd) save_dir))
  = process_template_string_to_avoid_doller_problem var_names
      (universal_newlines (template (prompt_template sd))) /\
  (dollar_free (template (prompt_template sd)) = true ->
   cr_free (template (prompt_template sd)) = true ->
   load_state_dict module_name var_names
     (save_state_dict module_name fs save_dir sd) save_dir = sd).
Proof.
  assert (H : load_state_dict module_name var_names
                (save_state_dict module_name fs save_dir sd) save_dir
              = mkStateDict (mkTemplate
                  (process_template_string_to_avoid_doller_problem var_names
                     (universal_newlines (template (prompt_template sd)))))).
  { unfold load_state_dict, save_state_dict, load_prompt_template,
      save_prompt_template. by rewrite lookup_insert_eq. }
  rewrite H. split; [done |]. intros Hf Hcr.
  rewrite (universal_newlines_cr_free _ Hcr).
  rewrite (escaping_keeps_dollar_free_text _ _ Hf).
  by destruct sd as [[t]].
Qed.

(** A saved text that was escaped before comes back escaped twice, and one
    with a carriage return comes back with a line feed; a plain text comes
    back as it was. *)
Lemma load_after_save_escapes_again_witness :
  template (prompt_template
    (load_state_dict "planner" ["question"]
       (save_state_dict "planner" ∅ "/work"
          (mkStateDict (mkTemplate "Pay $$5 for $question")))
       "/work"))
  = "Pay $$$$5 for $question" /\
  template (prompt_template
    (load_state_dict "planner" ["question"]
       (save_state_dict "planner" ∅ "/work"
          (mkStateDict (mkTemplate (String "a" (String "013" "b")))))
       "/work"))
  = String "a" (String "010" "b") /\
  load_state_dict "planner" ["question"]
    (save_state_dict "planner" ∅ "/work"
       (mkStateDict (mkTemplate "Answer briefly."))) "/work"
  = mkStateDict (mkTemplate "Answer briefly.").
Proof.
  split; [| split].
  - rewrite (proj1 (load_after_save_escapes_again "planner" ["question"] ∅
                      "/work"
                      (mkStateDict (mkTemplate "Pay $$5 for $question")))).
    reflexivity.
  - rewrite (proj1 (load_after_save_escapes_again "planner" ["question"] ∅
                      "/work"
                      (mkStateDict
                         (mkTemplate (String "a" (String "013" "b")))))).
    reflexivity.
  - apply (proj2 (load_after_save_escapes_again "planner" ["question"] ∅
                    "/work" (mkStateDict (mkTemplate "Answer briefly.")))).
    + reflexivity.
    + reflexivity.
Defined.

(** X14: [load_state_dict] and [does_state_dict_exists] look at the same
    file.  When [does_state_dict_exists] is false, [load_state_dict] gives
    the built-in text ['default prompt. edit it anyway']; when it is true,
    it gives the content of that file, as the read returns it, escaped. *)
Theorem load_state_dict_agrees_with_exists
    (module_name : string) (var_names : list string)
    (fs : gmap string string) (save_dir : string) :
  (does_state_dict_exists module_name fs save_dir = false ->
   load_state_dict module_name var_names fs save_dir
   = mkStateDict (mkTemplate "default prompt. edit it anyway")) /\
  (does_state_dict_exists module_name fs save_dir = true ->
   exists content,
     fs !! path_join save_dir ["prompt_template"; module_name +:+ ".txt"]
       = Some content /\
     load_state_dict module_name var_names fs save_dir
     = mkStateDict (mkTemplate
         (process_template_string_to_avoid_doller_problem var_names
            (universal_newlines content)))).
Proof.
  rewrite does_state_dict_exists_path.
  unfold load_state_dict, load_prompt_template.
  change (path_join save_dir ["prompt_template"; module_name +:+ ".txt"])
    with (path_join (path_join save_dir ["prompt_template"])
            [module_name +:+ ".txt"]).
  destruct (fs !! _) as [content |] eqn:E; split; intros H.
  - apply bool_decide_eq_false in H. destruct H. eauto.
  - by exists content.
  - done.
  - by apply bool_decide_eq_true in H as [? ?].
Qed.

Lemma load_state_dict_agrees_with_exists_witness :
  load_state_dict "planner" ["question"] ∅ "/work"
  = mkStateDict (mkTemplate "default prompt. edit it anyway").
Proof.
  apply (proj1 (load_state_dict_agrees_with_exists "planner" ["question"]
                  ∅ "/work")).
  reflexivity.
Defined.

(** X15: [init_state_dict] without the default-template flag.  It writes
    at most one file, the template file of the working directory (the
    given directory, or the current one when none or an empty one is
    given), and only when that file was missing; afterwards the file
    exists, and a second [init_state_dict] writes nothing. *)
Theorem init_state_dict_stores_once
    (module_name : string) (var_names : list string)
    (source_dir cwd : string) (fs : gmap string string)
    (is_cn : bool) (prompt_template_dir : option string) :
  let working_dir :=
    match prompt_template_dir with
    | Some d => if bool_decide (d = "") then cwd else d
    | None => cwd
    end in
  let file :=
    path_join working_dir ["prompt_template"; module_name +:+ ".txt"] in
  let fs1 :=
    snd (init_state_dict module_name var_names source_dir cwd fs
           false is_cn prompt_template_dir) in
  does_state_dict_exists module_name fs1 working_dir = true /\
  (forall p, p <> file -> fs1 !! p = fs !! p) /\
  (is_Some (fs !! file) -> fs1 = fs) /\
  snd (init_state_dict module_name var_names source_dir cwd fs1
         false is_cn prompt_template_dir) = fs1.
Proof.
  intros working_dir file fs1.
  assert (Hex : forall f : gmap string string,
            does_state_dict_exists module_name f working_dir
            = bool_decide (is_Some (f !! file))) by done.
  assert (Hinit : forall f : gmap string string,
    snd (init_state_dict module_name var_names source_dir cwd f
           false is_cn prompt_template_dir)
    = if bool_decide (is_Some (f !! file)) then f
      else <[file := template (prompt_template
                (create_default_state_dict module_name var_names
                   source_dir f is_cn))]> f).
  { intros f. unfold init_state_dict. fold working_dir.
    rewrite Hex. by destruct (bool_decide (is_Some (f !! file))). }
  assert (H1 : is_Some (fs1 !! file)).
  { unfold fs1. rewrite Hinit. case_bool_decide as Hc; [done |].
    rewrite lookup_insert_eq. eauto. }
  split; [rewrite Hex; by apply bool_decide_eq_true |].
  split; [| split].
  - intros p Hp. unfold fs1. rewrite Hinit. case_bool_decide; [done |].
    by rewrite lookup_insert_ne.
  - intros Hs. unfold fs1. rewrite Hinit.
    by rewrite bool_decide_eq_true_2.
  - rewrite Hinit. by rewrite bool_decide_eq_true_2.
Qed.

(** ** builder/rest/builder_api.py *)

Section BuilderApiFacts.
Import BuilderApi.
Context {R : Type}.
Variable call_api : api_call -> R.
Variable select_header_accept : list string -> pyval.
Variable select_header_content_type : list string -> pyval.
Variable self : pyval.

Lemma copy_kwargs_spec (method_name : string) (all_params : list string)
    (items : list (string * pyval)) :
  forall m : gmap string pyval,
    copy_kwargs method_name all_params items m =
      match first_unexpected all_params items with
      | Some key => inl (unexpected_keyword key method_name)
      | None =>
          inr (fold_left (fun m kv => <[kv.1 := kv.2]> m) items m)
      end.
Proof.
  unfold first_unexpected.
  induction items as [| [key val] rest IH]; intros m; [done |].
  cbn [copy_kwargs find fst]. case_bool_decide; cbn [negb fmap option_fmap
    option_map fst]; [| done].
  by rewrite IH.
Qed.

Lemma lookup_fold_insert (key : string) (items : list (string * pyval)) :
  forall m : gmap string pyval,
    fold_left (fun m kv => <[kv.1 := kv.2]> m) items m !! key =
      match kwarg key items with
      | Some x => Some x
      | None => m !! key
      end.
Proof.
  induction items as [| [k v] rest IH]; intros m; [done |].
  cbn [fold_left fst snd kwarg]. rewrite IH.
  destruct (kwarg key rest); [done |].
  rewrite lookup_insert. case_decide; case_bool_decide; done.
Qed.

Lemma lookup_params (key : string) (items kw : list (string * pyval)) :
  key <> "kwargs" -> key <> "self" ->
  delete "kwargs"
    (fold_left (fun m kv => <[kv.1 := kv.2]> m) items (locals_ self kw))
    !! key
  = kwarg key items.
Proof.
  intros Hk Hs. rewrite lookup_delete_ne by done.
  rewrite lookup_fold_insert. unfold locals_.
  rewrite !lookup_insert_ne, lookup_empty by done.
  by destruct (kwarg key items).
Qed.

Lemma kwarg_absent (key : string) (items : list (string * pyval)) :
  key ∉ items.*1 -> kwarg key items = None.
Proof.
  induction items as [| [k v] rest IH]; [done |].
  cbn [fmap list_fmap fst kwarg]. intros [Hne Hr]%not_elem_of_cons.
  rewrite (IH Hr). by rewrite bool_decide_eq_false_2.
Qed.

Lemma kwarg_dict_set_other (key k0 : string) (v : pyval)
    (items : list (string * pyval)) :
  key <> k0 -> kwarg key (dict_set k0 v items) = kwarg key items.
Proof.
  intros Hne. induction items as [| [k' v'] rest IH].
  - cbn. by rewrite bool_decide_eq_false_2.
  - cbn [dict_set]. case_bool_decide as Hk; cbn [kwarg].
    + subst k'. by rewrite !bool_decide_eq_false_2.
    + by rewrite IH.
Qed.

Lemma kwarg_dict_set_same (k0 : string) (v : pyval)
    (items : list (string * pyval)) :
  NoDup items.*1 -> kwarg k0 (dict_set k0 v items) = Some v.
Proof.
  induction items as [| [k' v'] rest IH]; intros Hnd.
  - cbn. by rewrite bool_decide_eq_true_2.
  - cbn [fmap list_fmap fst] in Hnd. apply NoDup_cons in Hnd as [Hni Hnd].
    cbn [dict_set]. case_bool_decide as Hk; cbn [kwarg].
    + subst k'. rewrite (kwarg_absent _ _ Hni).
      by rewrite bool_decide_eq_true_2.
    + by rewrite (IH Hnd).
Qed.

Lemma first_unexpected_dict_set (all_params : list string) (k0 : string)
    (v : pyval) (items : list (string * pyval)) :
  k0 ∈ all_params ->
  first_unexpected all_params (dict_set k0 v items)
  = first_unexpected all_params items.
Proof.
  intros Hin. unfold first_unexpected.
  induction items as [| [k' v'] rest IH].
  - cbn. by rewrite bool_decide_eq_true_2.
  - cbn [dict_set]. case_bool_decide as Hk; cbn [find fst].
    + subst k'. by rewrite !bool_decide_eq_true_2.
    + case_bool_decide; cbn [negb]; [exact IH | done].
Qed.
Ltac api_unfold :=
  unfold builder_query_job_inst_get, builder_submit_job_info_post,
    search_engine_index_get, builder_query_job_inst_get_with_http_info,
    builder_submit_job_info_post_with_http_info,
    search_engine_index_get_with_http_info;
  rewrite ?copy_kwargs_spec.

Ltac api_lookups :=
  unfold dict_get, dict_get_default;
  rewrite ?lookup_params by done.

(** X16: each [..._with_http_info] method checks the keyword arguments
    before anything else.  If some key is not one of the method's
    parameters or the four common options, it raises [ApiTypeError] naming
    the first such key and the method, and the client is not called;
    otherwise it makes one call to the client and returns its result. *)
Theorem with_http_info_checks_keywords (kwargs : list (string * pyval)) :
  match first_unexpected (["job_inst_id"] ++ common_params) kwargs with
  | Some key =>
      builder_query_job_inst_get_with_http_info call_api
        select_header_accept self kwargs
      = RaisedApiTypeError
          (unexpected_keyword key "builder_query_job_inst_get")
  | None =>
      exists req,
        builder_query_job_inst_get_with_http_info call_api
          select_header_accept self kwargs
        = Called (call_api req)
  end /\
  match first_unexpected (["builder_job_submit_request"] ++ common_params)
          kwargs with
  | Some key =>
      builder_submit_job_info_post_with_http_info call_api
        select_header_accept select_header_content_type self kwargs
      = RaisedApiTypeError
          (unexpected_keyword key "builder_submit_job_info_post")
  | None =>
      exists req,
        builder_submit_job_info_post_with_http_info call_api
          select_header_accept select_header_content_type self kwargs
        = Called (call_api req)
  end /\
  match first_unexpected
          (["spg_type"; "search_engine_index_response"] ++ common_params)
          kwargs with
  | Some key =>
      search_engine_index_get_with_http_info call_api
        select_header_accept select_header_content_type self kwargs
      = RaisedApiTypeError (unexpected_keyword key "search_engine_index_get")
  | None =>
      exists req,
        search_engine_index_get_with_http_info call_api
          select_header_accept select_header_content_type self kwargs
        = Called (call_api req)
  end.
Proof.
  repeat split; api_unfold;
    match goal with
    | |- context [first_unexpected ?a ?k] =>
        destruct (first_unexpected a k); [done | by eexists]
    end.
Qed.

(** X17: the request of [builder_query_job_inst_get_with_http_info] for
    accepted keyword arguments: a GET of [/builder/queryJobInst] without
    body, whose query is [jobInstId] when [job_inst_id] is given and is
    not [None], and empty otherwise; [_preload_content] is [True] unless
    given (a given [None] stays [None]); the other options are [None]
    unless given. *)
Theorem query_job_inst_request (kwargs : list (string * pyval)) :
  first_unexpected (["job_inst_id"] ++ common_params) kwargs = None ->
  builder_query_job_inst_get_with_http_info call_api
    select_header_accept self kwargs
  = Called (call_api
      {| resource_path := "/builder/queryJobInst";
         method := "GET";
         path_params := [];
         query_params :=
           match kwarg "job_inst_id" kwargs with
           | Some PyNone | None => []
           | Some v => [("jobInstId", v)]
           end;
         header_params :=
           [("Accept", select_header_accept ["application/json"])];
         body := PyNone;
         post_params := [];
         files := [];
         response_type := "list[BuilderJobInst]";
         auth_settings := [];
         async_req := default PyNone (kwarg "async_req" kwargs);
         _return_http_data_only :=
           default PyNone (kwarg "_return_http_data_only" kwargs);
         _preload_content :=
           default (PyBool true) (kwarg "_preload_content" kwargs);
         _request_timeout :=
           default PyNone (kwarg "_request_timeout" kwargs);
         collection_formats := [] |}).
Proof. intros H. api_unfold. rewrite H. by api_lookups. Qed.

(** X18: the request of [builder_submit_job_info_post_with_http_info] for
    accepted keyword arguments: a POST of [/builder/submitJobInfo] with an
    empty query, whose body is [builder_job_submit_request] when given
    (also when it is [None]) and [None] otherwise, with the [Accept] and
    [Content-Type] headers the client selects. *)
Theorem submit_job_info_request (kwargs : list (string * pyval)) :
  first_unexpected (["builder_job_submit_request"] ++ common_params) kwargs
    = None ->
  builder_submit_job_info_post_with_http_info call_api
    select_header_accept select_header_content_type self kwargs
  = Called (call_api
      {| resource_path := "/builder/submitJobInfo";
         method := "POST";
         path_params := [];
         query_params := [];
         header_params :=
           [("Accept", select_header_accept ["application/json"]);
            ("Content-Type",
             select_header_content_type ["application/json"])];
         body := default PyNone (kwarg "builder_job_submit_request" kwargs);
         post_params := [];
         files := [];
         response_type := "JobBuilderReceipt";
         auth_settings := [];
         async_req := default PyNone (kwarg "async_req" kwargs);
         _return_http_data_only :=
           default PyNone (kwarg "_return_http_data_only" kwargs);
         _preload_content :=
           default (PyBool true) (kwarg "_preload_content" kwargs);
         _request_timeout :=
           default PyNone (kwarg "_request_timeout" kwargs);
         collection_formats := [] |}).
Proof.
  intros H. api_unfold. rewrite H. api_lookups.
  by destruct (kwarg "builder_job_submit_request" kwargs).
Qed.

(** X19: the request of [search_engine_index_get_with_http_info] for
    accepted keyword arguments: a GET of [/searchEngine/index] whose query
    is [spgType] when [spg_type] is given and is not [None], and which
    carries [search_engine_index_response] as its body when given. *)
Theorem search_engine_index_request (kwargs : list (string * pyval)) :
  first_unexpected
    (["spg_type"; "search_engine_index_response"] ++ common_params) kwargs
    = None ->
  search_engine_index_get_with_http_info call_api
    select_header_accept select_header_content_type self kwargs
  = Called (call_api
      {| resource_path := "/searchEngine/index";
         method := "GET";
         path_params := [];
         query_params :=
           match kwarg "spg_type" kwargs with
           | Some PyNone | None => []
           | Some v => [("spgType", v)]
           end;
         header_params :=
           [("Accept", select_header_accept ["application/json"]);
            ("Content-Type",
             select_header_content_type ["application/json"])];
         body :=
           default PyNone (kwarg "search_engine_index_response" kwargs);
         post_params := [];
         files := [];
         response_type := "SearchEngineIndexResponse";
         auth_settings := [];
         async_req := default PyNone (kwarg "async_req" kwargs);
         _return_http_data_only :=
           default PyNone (kwarg "_return_http_data_only" kwargs);
         _preload_content :=
           default (PyBool true) (kwarg "_preload_content" kwargs);
         _request_timeout :=
           default PyNone (kwarg "_request_timeout" kwargs);
         collection_formats := [] |}).
Proof.
  intros H. api_unfold. rewrite H. api_lookups.
  by destruct (kwarg "search_engine_index_response" kwargs).
Qed.

(** X20: the plain methods are the [..._with_http_info] methods with
    [_return_http_data_only] forced to [True]: they raise the same error
    on the same keyword arguments, and otherwise send the same request
    except that this option is [True], whatever the caller passed for
    it. *)
Theorem plain_methods_force_data_only (kwargs : list (string * pyval)) :
  NoDup kwargs.*1 ->
  builder_query_job_inst_get call_api select_header_accept self kwargs
  = builder_query_job_inst_get_with_http_info
      (fun req => call_api (with_data_only req))
      select_header_accept self kwargs /\
  builder_submit_job_info_post call_api select_header_accept
    select_header_content_type self kwargs
  = builder_submit_job_info_post_with_http_info
      (fun req => call_api (with_data_only req))
      select_header_accept select_header_content_type self kwargs /\
  search_engine_index_get call_api select_header_accept
    select_header_content_type self kwargs
  = search_engine_index_get_with_http_info
      (fun req => call_api (with_data_only req))
      select_header_accept select_header_content_type self kwargs.
Proof.
  intros Hnd. repeat split; api_unfold;
    (rewrite first_unexpected_dict_set
       by (unfold common_params; set_solver));
    match goal with
    | |- context [first_unexpected ?a ?k] =>
        destruct (first_unexpected a k); [done |]
    end;
    api_lookups; unfold with_data_only; cbn;
    rewrite (kwarg_dict_set_same _ _ _ Hnd);
    rewrite !kwarg_dict_set_other by done; reflexivity.
Qed.

End BuilderApiFacts.

Lemma with_http_info_checks_keywords_witness :
  BuilderApi.builder_query_job_inst_get_with_http_info (fun req => req)
    (fun _ => BuilderApi.PyStr "application/json") (BuilderApi.PyObject 0)
    [("job_inst_id", BuilderApi.PyInt 7); ("verbose", BuilderApi.PyBool true)]
  = BuilderApi.RaisedApiTypeError
      (BuilderApi.unexpected_keyword "verbose"
         "builder_query_job_inst_get").
Proof.
  apply (proj1 (with_http_info_checks_keywords (fun req => req)
                  (fun _ => BuilderApi.PyStr "application/json")
                  (fun _ => BuilderApi.PyStr "application/json")
                  (BuilderApi.PyObject 0)
                  [("job_inst_id", BuilderApi.PyInt 7);
                   ("verbose", BuilderApi.PyBool true)])).
Defined.

Lemma query_job_inst_request_witness :
  exists req,
    BuilderApi.builder_query_job_inst_get_with_http_info (fun req => req)
      (fun _ => BuilderApi.PyStr "application/json") (BuilderApi.PyObject 0)
      [("job_inst_id", BuilderApi.PyInt 7);
       ("_preload_content", BuilderApi.PyNone)]
    = BuilderApi.Called req /\
    BuilderApi.query_params req = [("jobInstId", BuilderApi.PyInt 7)] /\
    BuilderApi._preload_content req = BuilderApi.PyNone /\
    BuilderApi._return_http_data_only req = BuilderApi.PyNone.
Proof.
  eexists. split.
  - apply (query_job_inst_request (fun req => req)
             (fun _ => BuilderApi.PyStr "application/json")
             (BuilderApi.PyObject 0)
             [("job_inst_id", BuilderApi.PyInt 7);
              ("_preload_content", BuilderApi.PyNone)]).
    reflexivity.
  - repeat split; reflexivity.
Defined.

Lemma submit_job_info_request_witness :
  exists req,
    BuilderApi.builder_submit_job_info_post_with_http_info (fun req => req)
      (fun _ => BuilderApi.PyStr "application/json")
      (fun _ => BuilderApi.PyStr "application/json") (BuilderApi.PyObject 0)
      [("builder_job_submit_request", BuilderApi.PyObject 1)]
    = BuilderApi.Called req /\
    BuilderApi.method req = "POST" /\
    BuilderApi.body req = BuilderApi.PyObject 1 /\
    BuilderApi.query_params req = [].
Proof.
  eexists. split.
  - apply (submit_job_info_request (fun req => req)
             (fun _ => BuilderApi.PyStr "application/json")
             (fun _ => BuilderApi.PyStr "application/json")
             (BuilderApi.PyObject 0)
             [("builder_job_submit_request", BuilderApi.PyObject 1)]).
    reflexivity.
  - repeat split; reflexivity.
Defined.

Lemma search_engine_index_request_witness :
  exists req,
    BuilderApi.search_engine_index_get_with_http_info (fun req => req)
      (fun _ => BuilderApi.PyStr "application/json")
      (fun _ => BuilderApi.PyStr "application/json") (BuilderApi.PyObject 0)
      [("spg_type", BuilderApi.PyStr "Person")]
    = BuilderApi.Called req /\
    BuilderApi.method req = "GET" /\
    BuilderApi.body req = BuilderApi.PyNone /\
    BuilderApi.query_params req = [("spgType", BuilderApi.PyStr "Person")].
Proof.
  eexists. split.
  - apply (search_engine_index_request (fun req => req)
             (fun _ => BuilderApi.PyStr "application/json")
             (fun _ => BuilderApi.PyStr "application/json")
             (BuilderApi.PyObject 0)
             [("spg_type", BuilderApi.PyStr "Person")]).
    reflexivity.
  - repeat split; reflexivity.
Defined.

Lemma two_keywords_nodup :
  NoDup ([("job_inst_id", BuilderApi.PyInt 7);
          ("_return_http_data_only", BuilderApi.PyBool false)].*1).
Proof.
  cbn. apply NoDup_cons. split; [| apply NoDup_singleton].
  apply not_elem_of_cons. split; [done | apply not_elem_of_nil].
Defined.

Lemma plain_methods_force_data_only_witness :
  BuilderApi.builder_query_job_inst_get (fun req => req)
    (fun _ => BuilderApi.PyStr "application/json") (BuilderApi.PyObject 0)
    [("job_inst_id", BuilderApi.PyInt 7);
     ("_return_http_data_only", BuilderApi.PyBool false)]
  = BuilderApi.builder_query_job_inst_get_with_http_info
      (fun req => BuilderApi.with_data_only req)
      (fun _ => BuilderApi.PyStr "application/json") (BuilderApi.PyObject 0)
      [("job_inst_id", BuilderApi.PyInt 7);
       ("_return_http_data_only", BuilderApi.PyBool false)].
Proof.
  apply (proj1 (plain_methods_force_data_only (fun req => req)
                  (fun _ => BuilderApi.PyStr "application/json")
                  (fun _ => BuilderApi.PyStr "application/json")
                  (BuilderApi.PyObject 0)
                  [("job_inst_id", BuilderApi.PyInt 7);
                   ("_return_http_data_only", BuilderApi.PyBool false)]
                  two_keywords_nodup)).
Defined.

Lemma init_state_dict_stores_once_witness :
  does_state_dict_exists "planner"
    (snd (init_state_dict "planner" ["question"] "/src" "/home" ∅
            false true None)) "/home" = true.
Proof.
  apply (proj1 (init_state_dict_stores_once "planner" ["question"]
                  "/src" "/home" ∅ true None)).
Defined.

(** ** class KagBaseModule *)

(** X21: [KagBaseModule.process_intermediate_info] does what the agent's
    method does.  For a [StopAsyncIteration] nothing is called.  For a
    payload, when in this run every call of [process] returns and leaves
    the list as it was, [process] of every entry of the module's
    [intermediate_process_tools] is called with it, once per entry and in
    order.  On an agent that holds the same list, the two methods have the
    same outcome whatever the processors do. *)
Theorem module_process_intermediate_info_calls_each_processor
    (code : process_code) (m : KagBaseModule.t) (info_dict : info)
    (w : world) :
  (isinstance_StopAsyncIteration info_dict = true ->
   forall fuel,
     KagBaseModule.process_intermediate_info code fuel m info_dict w
       = (Return tt, w)) /\
  (isinstance_StopAsyncIteration info_dict = false ->
   forall (tools : list loc) (h_end : list obj) (fuel : nat),
     heap w !! KagBaseModule.intermediate_process_tools m
       = Some (OList tools) ->
     calls_return code info_dict
       (KagBaseModule.intermediate_process_tools m) tools tools
       (trace w) (heap w) h_end ->
     (length tools < fuel)%nat ->
     KagBaseModule.process_intermediate_info code fuel m info_dict w
       = (Return tt,
          mkWorld h_end (clock w)
                  (trace w ++ process_calls tools info_dict))) /\
  (forall (self : loc) (a : Agent) (fuel : nat),
     heap w !! self = Some (OAgent a) ->
     intermediate_process_tools a
       = KagBaseModule.intermediate_process_tools m ->
     KagBaseModule.process_intermediate_info code fuel m info_dict w
       = process_intermediate_info code fuel self info_dict w).
Proof.
  unfold KagBaseModule.process_intermediate_info. split; [| split].
  - by intros ->.
  - intros Ei tools h_end fuel Hl Hrun Hf. rewrite Ei. cbn [negb].
    pose proof (for_in_list_returns code info_dict _ tools tools [] w h_end
                  fuel eq_refl Hl Hrun Hf) as Hloop.
    cbn [length] in Hloop. exact Hloop.
  - intros self a fuel Hs Ha. unfold process_intermediate_info.
    destruct (isinstance_StopAsyncIteration info_dict); cbn [negb];
      [done |].
    unfold bind at 1. rewrite (get_agent_ok _ _ _ Hs). by rewrite Ha.
Qed.

Lemma module_process_intermediate_info_calls_each_processor_witness :
  KagBaseModule.process_intermediate_info example_code 5
    (KagBaseModule.mk 0 false 1 3 None None None None)
    (InfoDict [("node", "X")]) w_once
  = (Return tt,
     mkWorld (heap w_once) 0
       [EvProcess 0 (InfoDict [("node", "X")]);
        EvProcess 2 (InfoDict [("node", "X")])]).
Proof.
  apply (proj1 (proj2
           (module_process_intermediate_info_calls_each_processor
              example_code
              (KagBaseModule.mk 0 false 1 3 None None None None)
              (InfoDict [("node", "X")]) w_once))
           eq_refl [0; 2]%nat (heap w_once) 5%nat eq_refl
           (w_once_calls_return (InfoDict [("node", "X")]))
           ltac:(cbn; lia)).
Defined.

(** X22: a new module owns its two tool lists.  [KagBaseModule(...)]
    creates two new, distinct, empty lists and changes no object that
    existed; so a new module delivers an event to nobody, and a module
    that is not computational reads and writes no file and has no state
    dict. *)
Theorem module_init_owns_its_lists
    (module_name : string) (var_names : list string)
    (source_dir cwd : string) (llm : loc)
    (use_default is_cn : bool) (dir : option string)
    (is_computational : bool) (fs : gmap string string)
    (info_dict : info) (w : world) :
  exists (m : KagBaseModule.t) (fs' : gmap string string) (w' : world),
    KagBaseModule.__init__ module_name var_names source_dir cwd llm
      use_default is_cn dir is_computational fs w
      = (Return (m, fs'), w') /\
    heap w !! KagBaseModule.intermediate_process_tools m = None /\
    heap w !! KagBaseModule.extra_info_fetch_tools m = None /\
    heap w' !! KagBaseModule.intermediate_process_tools m
      = Some (OList []) /\
    heap w' !! KagBaseModule.extra_info_fetch_tools m = Some (OList []) /\
    KagBaseModule.intermediate_process_tools m
      <> KagBaseModule.extra_info_fetch_tools m /\
    (forall l : nat, (l < length (heap w))%nat ->
       heap w' !! l = heap w !! l) /\
    (forall (code : process_code) (fuel : nat),
       KagBaseModule.process_intermediate_info code (S fuel) m info_dict w'
         = (Return tt, w')) /\
    (is_computational = false ->
     fs' = fs /\ KagBaseModule.state_dict m = None).
Proof.
  set (w' := mkWorld (heap w ++ [OList []; OList []]) (clock w) (trace w)).
  assert (H0 : heap w' !! length (heap w) = Some (OList [])).
  { cbn [heap w']. by apply list_lookup_middle. }
  assert (H1 : heap w' !! (length (heap w) + 1)%nat = Some (OList [])).
  { cbn [heap w']. rewrite lookup_app_r by lia.
    by replace (length (heap w) + 1 - length (heap w))%nat with 1%nat
      by lia. }
  assert (Hinit : forall x : KagBaseModule.t * gmap string string,
    (processors <- alloc (OList []) ;;
     fetchers <- alloc (OList []) ;;
     ret x) w = (Return x, w')).
  { intros x. unfold bind, alloc, ret, w'. cbn [heap clock trace].
    by rewrite <- app_assoc. }
  assert (Hlen : length (heap w ++ [OList []]) = (length (heap w) + 1)%nat).
  { rewrite length_app. reflexivity. }
  destruct is_computational.
  - destruct (init_state_dict module_name var_names source_dir cwd fs
                use_default is_cn dir) as [sd fs1] eqn:Ei.
    eexists (KagBaseModule.mk llm true (length (heap w))
               (length (heap w) + 1) _ _ _ _), fs1, w'.
    split.
    { unfold KagBaseModule.__init__. rewrite Ei.
      unfold bind, alloc, ret, w'. cbn [heap clock trace].
      rewrite Hlen. by rewrite <- app_assoc. }
    cbn [KagBaseModule.intermediate_process_tools
         KagBaseModule.extra_info_fetch_tools KagBaseModule.state_dict].
    split; [apply lookup_ge_None; lia |].
    split; [apply lookup_ge_None; lia |].
    split; [exact H0 |]. split; [exact H1 |]. split; [lia |].
    split; [intros l Hl; cbn [heap w']; by apply lookup_app_l |].
    split; [| done].
    intros code fuel.
    unfold KagBaseModule.process_intermediate_info.
    cbn [KagBaseModule.intermediate_process_tools].
    destruct (isinstance_StopAsyncIteration info_dict); cbn [negb];
      [done |].
    cbn [for_in_list]. unfold bind. by rewrite (get_list_ok _ _ _ H0).
  - eexists (KagBaseModule.mk llm false (length (heap w))
               (length (heap w) + 1) None None None None), fs, w'.
    split.
    { unfold KagBaseModule.__init__.
      unfold bind, alloc, ret, w'. cbn [heap clock trace].
      rewrite Hlen. by rewrite <- app_assoc. }
    cbn [KagBaseModule.intermediate_process_tools
         KagBaseModule.extra_info_fetch_tools KagBaseModule.state_dict].
    split; [apply lookup_ge_None; lia |].
    split; [apply lookup_ge_None; lia |].
    split; [exact H0 |]. split; [exact H1 |]. split; [lia |].
    split; [intros l Hl; cbn [heap w']; by apply lookup_app_l |].
    split; [| done].
    intros code fuel.
    unfold KagBaseModule.process_intermediate_info.
    cbn [KagBaseModule.intermediate_process_tools].
    destruct (isinstance_StopAsyncIteration info_dict); cbn [negb];
      [done |].
    cbn [for_in_list]. unfold bind. by rewrite (get_list_ok _ _ _ H0).
Qed.

(** X23: the base [forward] sends the bare question text to the language
    model and returns its output as it is: for every module, whatever its
    state dict, [forward(question)] is [llm_module.generate] applied to
    [question.question]; the prompt template is not used.
    [async_forward] does the same. *)
Theorem forward_is_generate_on_question_text
    (generate : loc -> string -> M string) (m : KagBaseModule.t)
    (question_ref : loc) (q : Question) (w : world) :
  heap w !! question_ref = Some (OQuestion q) ->
  KagBaseModule.forward generate m question_ref w
    = generate (KagBaseModule.llm_module m) (question q) w /\
  KagBaseModule.async_forward generate m question_ref w
    = generate (KagBaseModule.llm_module m) (question q) w.
Proof.
  intros Hq.
  assert (H : KagBaseModule.forward generate m question_ref w
              = generate (KagBaseModule.llm_module m) (question q) w).
  { unfold KagBaseModule.forward, KagBaseModule.preprocess,
      KagBaseModule.postprocess.
    unfold bind at 1. unfold bind at 1.
    rewrite (get_question_ok _ _ _ Hq). destruct q as [text ? ? ? ? ?].
    cbn [question]. unfold ret at 1.
    unfold bind, ret.
    by destruct (generate (KagBaseModule.llm_module m) text w)
      as [[out | e |] w1]. }
  split; [exact H | exact H].
Qed.

Lemma forward_is_generate_on_question_text_witness :
  KagBaseModule.forward (fun _ prompt => ret ("echo: " +:+ prompt))
    (KagBaseModule.mk 0 false 0 0 None None None None) 3 w_xy
  = (Return "echo: X", w_xy).
Proof.
  apply (proj1 (forward_is_generate_on_question_text
                  (fun _ prompt => ret ("echo: " +:+ prompt))
                  (KagBaseModule.mk 0 false 0 0 None None None None) 3
                  {| question := "X"; dependencies := 1; children := 0;
                     parent := None; answer := None; context := None |}
                  w_xy eq_refl)).
Defined.

Lemma module_init_owns_its_lists_witness :
  exists (m : KagBaseModule.t) (fs' : gmap string string) (w' : world),
    KagBaseModule.__init__ "planner" ["question"] "/src" "/home" 0
      true true None false ∅ empty_world
      = (Return (m, fs'), w') /\
    fs' = ∅ /\ KagBaseModule.state_dict m = None.
Proof.
  destruct (module_init_owns_its_lists "planner" ["question"] "/src"
              "/home" 0 true true None false ∅ (InfoDict []) empty_world)
    as (m & fs' & w' & H & _ & _ & _ & _ & _ & _ & _ & Hnc).
  exists m, fs', w'. split; [exact H | apply Hnc; reflexivity].
Defined.
